(** * The Infobip channel handler of courier (handlers/infobip/infobip.go)

    A shallow embedding of the three entry points of the handler,
    [StatusMessage], [ReceiveMessage] and [SendMsg], and of the static
    table [infobipStatusMapping].  Go strings are [string], [int] and
    [int64] are [Z] (the handler performs no arithmetic on them, only
    equality tests), the Go map is a [gmap string _], slices are lists.

    The handler talks to collaborators that live outside the file: the
    backend, the [http.ResponseWriter], the HTTP client, the clock, the
    JSON decoder.  Their effects are threaded through an explicit
    [World]; what they answer is left to the class [Collaborators]. *)

From Stdlib Require Import Ascii String ZArith.
From stdpp Require Import gmap strings list pretty.

Local Open Scope string_scope.
Local Open Scope list_scope.
Local Open Scope Z_scope.

(** ** Values shared with the courier package *)

(** A Go [error], identified with the text of its [Error()] method. *)
Definition error := string.

(** [fmt.Errorf] and [errors.Errorf] with the format already expanded. *)
Definition Errorf (msg : string) : error := msg.

(** Modelled from the spec: the declaration of [courier.MsgStatusValue] is
    not in the file; these are the values of "status value from enumeration
    {Sent, Delivered, Failed, Errored, Wired}" (section 3). *)
Inductive MsgStatusValue :=
  MsgSent | MsgDelivered | MsgFailed | MsgErrored | MsgWired.

(** [courier.MsgID]: built by [courier.NewMsgID] from an [int64], or nil for
    a message the backend has not numbered yet. *)
Inductive MsgID := NewMsgID (id : Z) | NilMsgID.

(** [urns.URN] is a Go string type. *)
Definition URN := string.

(** [time.Time], which the handler never looks into: an instant in
    nanoseconds since the Unix epoch and the offset of its zone in
    seconds. *)
Record Time := {
  unix_nano : Z;
  zone_offset : Z;
}.

(** Modelled from the spec: the [courier.Channel] interface is declared
    outside the file; a channel carries "(address, credentials, callback
    domain)" (section 3), a country (section 4.3) and an identifier
    (section 6).  The credentials sit in the channel configuration, read
    with [StringConfigForKey]; [CallbackDomain] takes the server's domain
    as fallback. *)
Record Channel := {
  UUID : string;
  Address : string;
  Country : string;
  Config : gmap string string;
  CallbackDomain : string → string;
}.

(** Modelled from the spec: [channel.StringConfigForKey(key, defaultValue)]
    is outside the file; the configured string, or the default when the key
    is absent ("absence of either fails", section 4.5). *)
Definition StringConfigForKey (c : Channel) (key defaultValue : string) : string :=
  default defaultValue (Config c !! key).

(** [utils.RequestResponse]: what [utils.MakeHTTPRequest] hands back. *)
Record RequestResponse := {
  StatusCode : Z;
  Body : string;
}.

(** Modelled from the spec: [courier.ChannelLog] is declared outside the
    file; "a log record of the attempt" to which an error can be attached
    (section 4.5, steps 4 to 6). *)
Record ChannelLog := {
  log_Description : string;
  log_Channel : Channel;
  log_MsgID : MsgID;
  log_RR : RequestResponse;
  log_Error : option error;
}.

(** Modelled from the spec: [courier.MsgStatus], the "Internal Delivery
    Status: {channel reference, internal message identifier, status value}"
    (section 3).  [AddLog] stores a [*ChannelLog]: the status keeps the
    address of the log in the heap of the [World], so that a later
    [log.WithError] is seen through the status. *)
Record MsgStatus := {
  status_Channel : Channel;
  status_ID : MsgID;
  status_Status : MsgStatusValue;
  status_Logs : list nat;
}.

(** Modelled from the spec: [NewMsgStatusForID], [AddLog] and [SetStatus]
    are outside the file; a status is built "pre-set" to a value, a log
    record is attached to it, and it is upgraded to another value (section
    4.5, steps 4 and 7). *)
Definition NewMsgStatusForID (c : Channel) (id : MsgID) (s : MsgStatusValue) : MsgStatus :=
  {| status_Channel := c; status_ID := id; status_Status := s; status_Logs := [] |}.

Definition AddLog (s : MsgStatus) (l : nat) : MsgStatus :=
  {| status_Channel := status_Channel s; status_ID := status_ID s;
     status_Status := status_Status s; status_Logs := status_Logs s ++ [l] |}.

Definition SetStatus (s : MsgStatus) (v : MsgStatusValue) : MsgStatus :=
  {| status_Channel := status_Channel s; status_ID := status_ID s;
     status_Status := v; status_Logs := status_Logs s |}.

(** Modelled from the spec: [log.WithError(description, err)] is outside the
    file; "attach the error to the log" (section 4.5, steps 5 and 6), here
    on the log behind the pointer. *)
Definition set_error (description : string) (err : error) (l : ChannelLog) : ChannelLog :=
  {| log_Description := description; log_Channel := log_Channel l;
     log_MsgID := log_MsgID l; log_RR := log_RR l; log_Error := Some err |}.

(** Modelled from the spec: [courier.Msg] is declared outside the file; the
    "Internal Message: {channel reference, sender identifier, body text,
    received timestamp, optional external/provider message identifier}"
    (section 3), with the internal identifier of an outbound send
    request. *)
Record Msg := {
  msg_Channel : Channel;
  msg_ID : MsgID;
  msg_URN : URN;
  msg_Text : string;
  msg_ReceivedOn : option Time;
  msg_ExternalID : string;
}.

(** Modelled from the spec: [NewIncomingMsg], [WithReceivedOn] and
    [WithExternalID] are outside the file; "construct an Internal Message
    carrying the external identifier" (section 4.3). *)
Definition NewIncomingMsg (c : Channel) (urn : URN) (text : string) : Msg :=
  {| msg_Channel := c; msg_ID := NilMsgID; msg_URN := urn; msg_Text := text;
     msg_ReceivedOn := None; msg_ExternalID := "" |}.

Definition WithReceivedOn (date : Time) (m : Msg) : Msg :=
  {| msg_Channel := msg_Channel m; msg_ID := msg_ID m; msg_URN := msg_URN m;
     msg_Text := msg_Text m; msg_ReceivedOn := Some date;
     msg_ExternalID := msg_ExternalID m |}.

Definition WithExternalID (id : string) (m : Msg) : Msg :=
  {| msg_Channel := msg_Channel m; msg_ID := msg_ID m; msg_URN := msg_URN m;
     msg_Text := msg_Text m; msg_ReceivedOn := msg_ReceivedOn m;
     msg_ExternalID := id |}.

(** [courier.Event]: the interface both messages and statuses satisfy. *)
Inductive Event := EventMsg (m : Msg) | EventStatus (s : MsgStatus).

(** Modelled from the spec: the bodies of [courier.WriteError],
    [WriteIgnored], [WriteMsgSuccess] and [WriteStatusSuccess] are outside
    the file; each writes one response (section 6): "a 4xx error response
    describing the cause", "a distinct ignored 2xx response", "2xx with an
    acknowledgment". *)
Inductive Response :=
| ResponseError (err : error)
| ResponseIgnored (details : string)
| ResponseMsgSuccess (msgs : list Msg)
| ResponseStatusSuccess (statuses : list MsgStatus).

(** What a handler returns: its events and its error. *)
Definition Result : Type := list Event * option error.

(** ** JSON values

    The tree that [encoding/json] writes and reads; numbers are the
    integers, the only numbers the handler's payloads carry. *)
#[local] Unset Elimination Schemes.
Inductive JSON :=
| JNull
| JBool (b : bool)
| JNumber (n : Z)
| JString (s : string)
| JArray (elems : list JSON)
| JObject (fields : list (string * JSON)).
#[local] Set Elimination Schemes.

(** The value of a key of an object. *)
Fixpoint assoc (key : string) (fields : list (string * JSON)) : option JSON :=
  match fields with
  | [] => None
  | (k, v) :: rest => if decide (k = key) then Some v else assoc key rest
  end.

Definition field (key : string) (j : JSON) : option JSON :=
  match j with
  | JObject fields => assoc key fields
  | _ => None
  end.

Definition element (i : nat) (j : JSON) : option JSON :=
  match j with
  | JArray elems => elems !! i
  | _ => None
  end.

(** A path into a value, such as messages[0].destinations[0].to. *)
Inductive step := Key (k : string) | Index (i : nat).

Fixpoint at_path (path : list step) (j : JSON) : option JSON :=
  match path with
  | [] => Some j
  | Key k :: rest =>
      match field k j with Some v => at_path rest v | None => None end
  | Index i :: rest =>
      match element i j with Some v => at_path rest v | None => None end
  end.

(** The body of an incoming [*http.Request]: bytes that [encoding/json]
    refuses, or the value it reads. *)
Inductive HTTPBody := Malformed (raw : string) | WellFormed (j : JSON).

(** ** The static status table (infobip.go, lines 68-74) *)

Definition infobipStatusMapping : gmap string MsgStatusValue :=
  <["PENDING" := MsgSent]>
  (<["EXPIRED" := MsgSent]>
  (<["DELIVERED" := MsgDelivered]>
  (<["REJECTED" := MsgFailed]>
  (<["UNDELIVERABLE" := MsgFailed]> ∅)))).

(** ** Payload structs (infobip.go, lines 76-84, 138-143, 166-170, 269-285) *)

(** [ibStatus]; the anonymous struct [Status] has the single field
    [GroupName]. *)
Record ibStatus := {
  ibStatus_MessageID : Z;
  ibStatus_Status_GroupName : string;
}.

Record ibStatusEnvelope := {
  ibStatusEnvelope_Results : list ibStatus;
}.

Record infobipMessage := {
  MessageID : string;
  From : string;
  Text : string;
  ReceivedAt : string;
}.

Record infobipEnvelope := {
  PendingMessageCount : Z;
  MessageCount : Z;
  Results : list infobipMessage;
}.

Record ibDestination := {
  To : string;
  dest_MessageID : string;
}.

Record ibOutgoingMessage := {
  out_From : string;
  Destinations : list ibDestination;
  out_Text : string;
  NotifyContentType : string;
  IntermediateReport : bool;
  NotifyURL : string;
}.

Record ibOutgoingEnvelope := {
  Messages : list ibOutgoingMessage;
}.

(** [ibOutgoingEnvelope] as [json.Encoder.Encode] writes it: one object per
    struct, the keys taken from the [json] tags in declaration order. *)
Definition encode_ibDestination (d : ibDestination) : JSON :=
  JObject [("to", JString (To d)); ("messageId", JString (dest_MessageID d))].

Definition encode_ibOutgoingMessage (m : ibOutgoingMessage) : JSON :=
  JObject [("from", JString (out_From m));
           ("destinations", JArray (encode_ibDestination <$> Destinations m));
           ("text", JString (out_Text m));
           ("notifyContentType", JString (NotifyContentType m));
           ("intermediateReport", JBool (IntermediateReport m));
           ("notifyUrl", JString (NotifyURL m))].

Definition encode_ibOutgoingEnvelope (e : ibOutgoingEnvelope) : JSON :=
  JObject [("messages", JArray (encode_ibOutgoingMessage <$> Messages e))].

(** [json.NewEncoder(requestBody).Encode(ibMsg)]: the request body is kept
    as the JSON value; a struct of strings, booleans and slices is always
    encoded, so the error result is nil. *)
Definition json_Encode (e : ibOutgoingEnvelope) : JSON + error :=
  inl (encode_ibOutgoingEnvelope e).

(** ** [strings.TrimLeft]

    Drops every leading character that occurs in the cutset.  Go works on
    UTF-8 code points; for an ASCII cutset such as "+" that is the same as
    working on bytes. *)
Fixpoint contains_char (cutset : string) (c : ascii) : bool :=
  match cutset with
  | EmptyString => false
  | String c' rest => if decide (c' = c) then true else contains_char rest c
  end.

Fixpoint TrimLeft (s cutset : string) : string :=
  match s with
  | EmptyString => EmptyString
  | String c rest => if contains_char cutset c then TrimLeft rest cutset else s
  end.

(** [n] copies of a character, to speak of what [TrimLeft] drops. *)
Fixpoint replicate_char (n : nat) (c : ascii) : string :=
  match n with
  | O => EmptyString
  | S n' => String c (replicate_char n' c)
  end.

(** ** The outgoing request

    [Header.Set] writes a map entry, [SetBasicAuth] records the
    credentials. *)
Record Request := {
  req_Method : string;
  req_URL : string;
  req_Body : JSON;
  req_Header : gmap string string;
  req_BasicAuth : option (string * string);
}.

Definition NewRequest (method url : string) (body : JSON) : Request :=
  {| req_Method := method; req_URL := url; req_Body := body;
     req_Header := ∅; req_BasicAuth := None |}.

Definition Header_Set (key value : string) (r : Request) : Request :=
  {| req_Method := req_Method r; req_URL := req_URL r; req_Body := req_Body r;
     req_Header := <[key := value]> (req_Header r); req_BasicAuth := req_BasicAuth r |}.

Definition SetBasicAuth (username password : string) (r : Request) : Request :=
  {| req_Method := req_Method r; req_URL := req_URL r; req_Body := req_Body r;
     req_Header := req_Header r; req_BasicAuth := Some (username, password) |}.

Definition sendURL : string := "https://api.infobip.com/sms/1/text/advanced".
Definition MethodPost : string := "POST".

(** The layout handed to [time.Parse] (infobip.go, line 110). *)
Definition receivedAt_layout : string := "2006-01-02T15:04:05.999999999-0700".

(** The path handed to [jsonparser.GetInt] (infobip.go, line 228). *)
Definition groupId_path : list string := ["messages"; "[0]"; "status"; "groupId"].

(** ** The world of a call

    Everything a call can change: what the backend stored, what was written
    to the [http.ResponseWriter], the requests handed to the HTTP client,
    the heap of channel logs, and how often the clock was read. *)
Record World := {
  backend_msgs : list Msg;
  backend_statuses : list MsgStatus;
  responses : list Response;
  http_requests : list Request;
  channel_logs : list ChannelLog;
  clock_reads : nat;
}.

(** What the collaborators answer.  [clock n] is the n-th reading of
    [time.Now]; [Domain] is [h.Server().Config().Domain]; the decoders are
    [handlers.DecodeAndValidateJSON] at the two envelope types; the last
    four fields say which writes and calls fail. *)
Class Collaborators := {
  clock : nat → Time;
  time_Parse : string → string → Time + error;
  NewTelURNForCountry : string → string → URN;
  URN_Path : URN → string;
  MsgID_String : MsgID → string;
  GetTextAndAttachments : Msg → string;
  jsonparser_GetInt : string → list string → Z * option error;
  ConfigUsername : string;
  ConfigPassword : string;
  Domain : string;
  DecodeAndValidateJSON_ibStatusEnvelope : HTTPBody → ibStatusEnvelope + error;
  DecodeAndValidateJSON_infobipEnvelope : HTTPBody → infobipEnvelope + error;
  Backend_WriteMsg : World → Msg → option error;
  Backend_WriteMsgStatus : World → MsgStatus → option error;
  ResponseWriter_Write : World → Response → option error;
  Client_Do : World → Request → RequestResponse * option error;
}.

(** ** Calls: a state monad over the [World], with Go's panic *)

Inductive Res (A : Type) := Returns (a : A) | Panics (reason : string).
Arguments Returns {A} a.
Arguments Panics {A} reason.

Definition M (A : Type) : Type := World → Res A * World.

Definition ret {A} (a : A) : M A := λ w, (Returns a, w).

Definition bind {A B} (c : M A) (k : A → M B) : M B :=
  λ w, match c w with
       | (Returns a, w') => k a w'
       | (Panics reason, w') => (Panics reason, w')
       end.

Notation "'let*' x ':=' c 'in' k" := (bind c (λ x, k))
  (at level 10, x name, c at level 100, k at level 200).

(** [s[i]]: Go panics when the index is out of range. *)
Definition index {A} (s : list A) (i : nat) : M A :=
  λ w, match s !! i with
       | Some x => (Returns x, w)
       | None => (Panics "index out of range", w)
       end.

Section Handler.
Context {env : Collaborators}.

(** [h.Backend().WriteMsg(ctx, msg)]: a message is stored when the backend
    answers nil. *)
Definition WriteMsg (msg : Msg) : M (option error) :=
  λ w, match Backend_WriteMsg w msg with
       | Some err => (Returns (Some err), w)
       | None =>
           (Returns None,
            {| backend_msgs := backend_msgs w ++ [msg];
               backend_statuses := backend_statuses w;
               responses := responses w;
               http_requests := http_requests w;
               channel_logs := channel_logs w;
               clock_reads := clock_reads w |})
       end.

Definition WriteMsgStatus (status : MsgStatus) : M (option error) :=
  λ w, match Backend_WriteMsgStatus w status with
       | Some err => (Returns (Some err), w)
       | None =>
           (Returns None,
            {| backend_msgs := backend_msgs w;
               backend_statuses := backend_statuses w ++ [status];
               responses := responses w;
               http_requests := http_requests w;
               channel_logs := channel_logs w;
               clock_reads := clock_reads w |})
       end.

(** One response goes to the [http.ResponseWriter]; the result is the error
    of that write. *)
Definition respond (resp : Response) : M (option error) :=
  λ w, (Returns (ResponseWriter_Write w resp),
        {| backend_msgs := backend_msgs w;
           backend_statuses := backend_statuses w;
           responses := responses w ++ [resp];
           http_requests := http_requests w;
           channel_logs := channel_logs w;
           clock_reads := clock_reads w |}).

Definition WriteError (err : error) : M (option error) :=
  respond (ResponseError err).

Definition WriteIgnored (details : string) : M (option error) :=
  respond (ResponseIgnored details).

Definition WriteMsgSuccess (msgs : list Msg) : M (option error) :=
  respond (ResponseMsgSuccess msgs).

Definition WriteStatusSuccess (statuses : list MsgStatus) : M (option error) :=
  respond (ResponseStatusSuccess statuses).

(** [time.Now()]: the next reading of the clock. *)
Definition time_Now : M Time :=
  λ w, (Returns (clock (clock_reads w)),
        {| backend_msgs := backend_msgs w;
           backend_statuses := backend_statuses w;
           responses := responses w;
           http_requests := http_requests w;
           channel_logs := channel_logs w;
           clock_reads := S (clock_reads w) |}).

(** [utils.MakeHTTPRequest(req)]: the request leaves the process; the answer
    is a [RequestResponse], with an error when the call failed. *)
Definition MakeHTTPRequest (req : Request) : M (RequestResponse * option error) :=
  λ w, (Returns (Client_Do w req),
        {| backend_msgs := backend_msgs w;
           backend_statuses := backend_statuses w;
           responses := responses w;
           http_requests := http_requests w ++ [req];
           channel_logs := channel_logs w;
           clock_reads := clock_reads w |}).

(** [courier.NewChannelLogFromRR]: a fresh [*ChannelLog]; the result is its
    address in the heap. *)
Definition NewChannelLogFromRR (description : string) (c : Channel) (id : MsgID)
    (rr : RequestResponse) : M nat :=
  λ w, (Returns (length (channel_logs w)),
        {| backend_msgs := backend_msgs w;
           backend_statuses := backend_statuses w;
           responses := responses w;
           http_requests := http_requests w;
           channel_logs := channel_logs w ++
             [{| log_Description := description; log_Channel := c; log_MsgID := id;
                 log_RR := rr; log_Error := None |}];
           clock_reads := clock_reads w |}).

(** [log.WithError(description, err)]: the log behind the pointer is updated
    in place. *)
Definition WithError (log : nat) (description : string) (err : error) : M unit :=
  λ w, (Returns tt,
        {| backend_msgs := backend_msgs w;
           backend_statuses := backend_statuses w;
           responses := responses w;
           http_requests := http_requests w;
           channel_logs := alter (set_error description err) log (channel_logs w);
           clock_reads := clock_reads w |}).

(** *** [StatusMessage] (infobip.go, lines 46-66) *)

Definition unknown_status (groupName : string) : error :=
  Errorf ("unknown status '" +:+ groupName +:+
          "', must be one of PENDING, DELIVERED, EXPIRED, REJECTED or UNDELIVERABLE").

Definition StatusMessage (channel : Channel) (r : HTTPBody) : M Result :=
  match DecodeAndValidateJSON_ibStatusEnvelope r with
  | inr err =>
      let* werr := WriteError err in
      ret ([], werr)
  | inl ibStatusEnvelope =>
      let* first := index (ibStatusEnvelope_Results ibStatusEnvelope) 0 in
      match infobipStatusMapping !! ibStatus_Status_GroupName first with
      | None =>
          let* first := index (ibStatusEnvelope_Results ibStatusEnvelope) 0 in
          let* werr := WriteError (unknown_status (ibStatus_Status_GroupName first)) in
          ret ([], werr)
      | Some msgStatus =>
          (* write our status *)
          let* first := index (ibStatusEnvelope_Results ibStatusEnvelope) 0 in
          let status :=
            NewMsgStatusForID channel (NewMsgID (ibStatus_MessageID first)) msgStatus in
          let* err := WriteMsgStatus status in
          match err with
          | Some err => ret ([], Some err)
          | None =>
              let* werr := WriteStatusSuccess [status] in
              ret ([EventStatus status], werr)
          end
      end
  end.

(** *** [ReceiveMessage] (infobip.go, lines 87-136) *)

(** The [for ... range ie.Results] loop.  It ends either by a [return] of
    the handler ([inl]) or by running off the slice with the messages
    accepted so far ([inr]). *)
Fixpoint ReceiveMessage_range (channel : Channel) (results : list infobipMessage)
    (msgs : list Msg) : M (Result + list Msg) :=
  match results with
  | [] => ret (inr msgs)
  | infobipMessage :: rest =>
      let messageID := MessageID infobipMessage in
      let text := Text infobipMessage in
      let dateString := ReceivedAt infobipMessage in
      if decide (text = "") then ReceiveMessage_range channel rest msgs
      else
        let* now := time_Now in
        match (if decide (dateString = "") then inl now
               else time_Parse receivedAt_layout dateString) with
        | inr err =>
            let* werr := WriteError err in
            ret (inl ([], werr))
        | inl date =>
            (* create our URN *)
            let urn := NewTelURNForCountry (From infobipMessage) (Country channel) in
            (* build our infobipMessage *)
            let msg :=
              WithExternalID messageID (WithReceivedOn date (NewIncomingMsg channel urn text)) in
            (* and write it *)
            let* err := WriteMsg msg in
            match err with
            | Some err => ret (inl ([], Some err))
            | None => ReceiveMessage_range channel rest (msgs ++ [msg])
            end
        end
  end.

Definition ReceiveMessage (channel : Channel) (r : HTTPBody) : M Result :=
  match DecodeAndValidateJSON_infobipEnvelope r with
  | inr err =>
      let* werr := WriteError err in
      ret ([], werr)
  | inl ie =>
      if decide (MessageCount ie = 0) then
        let* werr := WriteIgnored "ignoring request, no message" in
        ret ([], werr)
      else
        let* looped := ReceiveMessage_range channel (Results ie) [] in
        match looped with
        | inl returned => ret returned
        | inr msgs =>
            if decide (length msgs = 0%nat) then
              let* werr := WriteIgnored "ignoring request, no message" in
              ret ([], werr)
            else
              let* first := index msgs 0 in
              let* werr := WriteMsgSuccess msgs in
              ret ([EventMsg first], werr)
        end
  end.

(** *** [SendMsg] (infobip.go, lines 173-236) *)

Definition SendMsg (msg : Msg) : M (option MsgStatus * option error) :=
  let username := StringConfigForKey (msg_Channel msg) ConfigUsername "" in
  if decide (username = "") then
    ret (None, Some (Errorf "no username set for IB channel"))
  else
  let password := StringConfigForKey (msg_Channel msg) ConfigPassword "" in
  if decide (password = "") then
    ret (None, Some (Errorf "no password set for IB channel"))
  else
  let callbackDomain := CallbackDomain (msg_Channel msg) Domain in
  let statusURL :=
    "https://" +:+ callbackDomain +:+ "/c/ib/" +:+ UUID (msg_Channel msg) +:+ "/delivered" in
  let ibMsg :=
    {| Messages :=
         [ {| out_From := Address (msg_Channel msg);
              Destinations :=
                [ {| To := TrimLeft (URN_Path (msg_URN msg)) "+";
                     dest_MessageID := MsgID_String (msg_ID msg) |} ];
              out_Text := GetTextAndAttachments msg;
              NotifyContentType := "application/json";
              IntermediateReport := true;
              NotifyURL := statusURL |} ] |} in
  match json_Encode ibMsg with
  | inr err => ret (None, Some err)
  | inl requestBody =>
      (* build our request *)
      let req := NewRequest MethodPost sendURL requestBody in
      let req := Header_Set "Content-Type" "application/json" req in
      let req := Header_Set "Accept" "application/json" req in
      let req := SetBasicAuth username password req in
      let* answer := MakeHTTPRequest req in
      let '(rr, err) := answer in
      (* record our status and log *)
      let status := NewMsgStatusForID (msg_Channel msg) (msg_ID msg) MsgErrored in
      let* log := NewChannelLogFromRR "Message Sent" (msg_Channel msg) (msg_ID msg) rr in
      let status := AddLog status log in
      match err with
      | Some err =>
          let* _ := WithError log "Message Send Error" err in
          ret (Some status, None)
      | None =>
          let '(groupID, err) := jsonparser_GetInt (Body rr) groupId_path in
          if decide (err ≠ None ∨ (groupID ≠ 1 ∧ groupID ≠ 3)) then
            let* _ := WithError log "Message Send Error"
                        (Errorf ("received error status: '" +:+ pretty groupID +:+ "'")) in
            ret (Some status, None)
          else
            ret (Some (SetStatus status MsgWired), None)
      end
  end.

End Handler.

(** ** The decoder of the payload codecs *)

(** Modelled from the spec: [handlers.DecodeAndValidateJSON] and the
    validator behind the [validate:"required"] tags are outside the file.
    Section 4.2: "Malformed JSON fails with a parse error, distinct from a
    validation error"; a required field that is missing is a validation
    error. *)
Inductive DecodeError :=
| ParseError (detail : string)
| ValidationError (field_name : string).

Definition DecodeError_Error (e : DecodeError) : error :=
  match e with
  | ParseError detail => "unable to parse request JSON: " +:+ detail
  | ValidationError field_name => "field '" +:+ field_name +:+ "' is required"
  end.

(** A string field; an optional one that is absent is the empty string. *)
Definition decode_string (key : string) (required : bool) (j : JSON)
    : string + DecodeError :=
  match field key j with
  | Some (JString s) => inl s
  | Some _ => inr (ParseError key)
  | None => if required then inr (ValidationError key) else inl ""
  end.

(** An optional integer field; absent, it is zero. *)
Definition decode_int (key : string) (j : JSON) : Z + DecodeError :=
  match field key j with
  | Some (JNumber n) =>
      if decide (- 2 ^ 63 ≤ n < 2 ^ 63) then inl n else inr (ParseError key)
  | Some _ => inr (ParseError key)
  | None => inl 0
  end.

Fixpoint decode_all {A} (decode : JSON → A + DecodeError) (elems : list JSON)
    : list A + DecodeError :=
  match elems with
  | [] => inl []
  | elem :: rest =>
      match decode elem with
      | inr e => inr e
      | inl a =>
          match decode_all decode rest with
          | inr e => inr e
          | inl others => inl (a :: others)
          end
      end
  end.

(** Modelled from the spec: the required array of records under "results"
    of both envelopes; a decoder "fails with a validation error if the
    array [...] is missing" (section 4.2). *)
Definition decode_results {A} (decode : JSON → A + DecodeError) (j : JSON)
    : list A + DecodeError :=
  match j with
  | JObject fields =>
      match assoc "results" fields with
      | None => inr (ValidationError "results")
      | Some (JArray elems) => decode_all decode elems
      | Some _ => inr (ParseError "results")
      end
  | _ => inr (ParseError "body")
  end.

(** Modelled from the spec: a status record is "a numeric message
    identifier [required], a nested status object with a group-name string
    [required]" (section 4.2). *)
Definition decode_ibStatus (j : JSON) : ibStatus + DecodeError :=
  match field "messageId" j with
  | None => inr (ValidationError "messageId")
  | Some (JNumber id) =>
      if decide (- 2 ^ 63 ≤ id < 2 ^ 63) then
        match field "status" j with
        | None => inr (ValidationError "status")
        | Some status =>
            match decode_string "groupName" true status with
            | inr e => inr e
            | inl groupName =>
                inl {| ibStatus_MessageID := id; ibStatus_Status_GroupName := groupName |}
            end
        end
      else inr (ParseError "messageId")
  | Some _ => inr (ParseError "messageId")
  end.

(** Modelled from the spec: for a status batch, "missing/empty array is a
    validation error at decode time" (section 4.4). *)
Definition validate_ibStatusEnvelope (j : JSON) : ibStatusEnvelope + DecodeError :=
  match decode_results decode_ibStatus j with
  | inr e => inr e
  | inl [] => inr (ValidationError "results")
  | inl results => inl {| ibStatusEnvelope_Results := results |}
  end.

(** Modelled from the spec: an inbound record is "external message
    identifier, sender address [required], text, optional ISO-8601-with-
    offset timestamp string" (section 4.2). *)
Definition decode_infobipMessage (j : JSON) : infobipMessage + DecodeError :=
  match decode_string "messageId" false j with
  | inr e => inr e
  | inl messageId =>
      match decode_string "from" true j with
      | inr e => inr e
      | inl from =>
          match decode_string "text" false j with
          | inr e => inr e
          | inl text =>
              match decode_string "receivedAt" false j with
              | inr e => inr e
              | inl receivedAt =>
                  inl {| MessageID := messageId; From := from; Text := text;
                         ReceivedAt := receivedAt |}
              end
          end
      end
  end.

Definition validate_infobipEnvelope (j : JSON) : infobipEnvelope + DecodeError :=
  match decode_results decode_infobipMessage j with
  | inr e => inr e
  | inl results =>
      match decode_int "pendingMessageCount" j with
      | inr e => inr e
      | inl pending =>
          match decode_int "messageCount" j with
          | inr e => inr e
          | inl count =>
              inl {| PendingMessageCount := pending; MessageCount := count;
                     Results := results |}
          end
      end
  end.

(** Modelled from the spec: [handlers.DecodeAndValidateJSON] at the two
    envelope types, parse first, validate next. *)
Definition decode_with {A} (validate : JSON → A + DecodeError) (r : HTTPBody) : A + error :=
  match r with
  | Malformed raw => inr (DecodeError_Error (ParseError raw))
  | WellFormed j =>
      match validate j with
      | inr e => inr (DecodeError_Error e)
      | inl a => inl a
      end
  end.

Definition decode_ibStatusEnvelope : HTTPBody → ibStatusEnvelope + error :=
  decode_with validate_ibStatusEnvelope.

Definition decode_infobipEnvelope : HTTPBody → infobipEnvelope + error :=
  decode_with validate_infobipEnvelope.

(** ** Notions used by the properties *)

(** The table in the words of the specification (section 4.1):
    "PENDING→Sent, EXPIRED→Sent, DELIVERED→Delivered, REJECTED→Failed,
    UNDELIVERABLE→Failed"; any other name is unrecognized. *)
Definition status_table (groupName : string) : option MsgStatusValue :=
  if decide (groupName = "PENDING") then Some MsgSent
  else if decide (groupName = "EXPIRED") then Some MsgSent
  else if decide (groupName = "DELIVERED") then Some MsgDelivered
  else if decide (groupName = "REJECTED") then Some MsgFailed
  else if decide (groupName = "UNDELIVERABLE") then Some MsgFailed
  else None.

(** The world [w'] differs from [w] by the messages [new] stored in the
    backend and by readings of the clock. *)
Definition stores_only (w w' : World) (new : list Msg) : Prop :=
  backend_msgs w' = backend_msgs w ++ new
  ∧ backend_statuses w' = backend_statuses w
  ∧ responses w' = responses w
  ∧ http_requests w' = http_requests w
  ∧ channel_logs w' = channel_logs w
  ∧ (clock_reads w ≤ clock_reads w')%nat.

Section Notions.
Context {env : Collaborators}.

(** What [StatusMessage] does once the body is decoded and the slice has a
    first record. *)
Definition StatusMessage_first (channel : Channel) (first : ibStatus) : M Result :=
  match infobipStatusMapping !! ibStatus_Status_GroupName first with
  | None =>
      let* werr := WriteError (unknown_status (ibStatus_Status_GroupName first)) in
      ret ([], werr)
  | Some msgStatus =>
      let status :=
        NewMsgStatusForID channel (NewMsgID (ibStatus_MessageID first)) msgStatus in
      let* err := WriteMsgStatus status in
      match err with
      | Some err => ret ([], Some err)
      | None =>
          let* werr := WriteStatusSuccess [status] in
          ret ([EventStatus status], werr)
      end
  end.

(** [ReceiveMessage] on a decoded batch with nonzero declared count, as a
    function of the slice alone. *)
Definition ReceiveMessage_results (channel : Channel) (results : list infobipMessage)
    : M Result :=
  let* looped := ReceiveMessage_range channel results [] in
  match looped with
  | inl returned => ret returned
  | inr msgs =>
      if decide (length msgs = 0%nat) then
        let* werr := WriteIgnored "ignoring request, no message" in
        ret ([], werr)
      else
        let* first := index msgs 0 in
        let* werr := WriteMsgSuccess msgs in
        ret ([EventMsg first], werr)
  end.

(** The timestamp of a record is absent, or [time.Parse] reads it. *)
Definition timestamp_ok (rec : infobipMessage) : Prop :=
  ReceivedAt rec = "" ∨ ∃ date, time_Parse receivedAt_layout (ReceivedAt rec) = inl date.

(** Message [m] is what the loop builds from record [rec], with a reading
    of the clock between [lo] and [hi] when the record has no timestamp. *)
Definition accepted_as (channel : Channel) (lo hi : nat)
    (rec : infobipMessage) (m : Msg) : Prop :=
  msg_Channel m = channel
  ∧ msg_URN m = NewTelURNForCountry (From rec) (Country channel)
  ∧ msg_Text m = Text rec
  ∧ msg_ExternalID m = MessageID rec
  ∧ ((ReceivedAt rec = "" ∧
      ∃ n, (lo ≤ n < hi)%nat ∧ msg_ReceivedOn m = Some (clock n))
     ∨ (ReceivedAt rec ≠ "" ∧
        ∃ date, time_Parse receivedAt_layout (ReceivedAt rec) = inl date
                ∧ msg_ReceivedOn m = Some date)).

(** The sentence of section 8 as it is written: whenever a decoded batch
    holds a record with text and a timestamp that does not parse, the call
    answers with the parse error and the backend has stored nothing. *)
Definition no_partial_persistence (channel : Channel) (r : HTTPBody) (w : World) : Prop :=
  ∀ ie bad err,
    DecodeAndValidateJSON_infobipEnvelope r = inl ie →
    bad ∈ Results ie → Text bad ≠ "" → ReceivedAt bad ≠ "" →
    time_Parse receivedAt_layout (ReceivedAt bad) = inr err →
    let out := ReceiveMessage channel r w in
    responses out.2 = responses w ++ [ResponseError err]
    ∧ backend_msgs out.2 = backend_msgs w.

(** The username and the password of the channel are configured and not
    empty. *)
Definition credentials_set (c : Channel) : Prop :=
  StringConfigForKey c ConfigUsername "" ≠ ""
  ∧ StringConfigForKey c ConfigPassword "" ≠ "".

End Notions.

(** ** Sample collaborators

    A concrete world to run the handler in: a backend and a response writer
    that accept every write, a parser that knows the timestamp of the
    payload quoted in infobip.go, a JSON reader that knows three gateway
    answers, and a client chosen by the caller. *)
Module Sample.

Definition quote : string := String (ascii_of_nat 34) EmptyString.

Definition quoted (s : string) : string := quote +:+ s +:+ quote.

(** The gateway answer with the given group: the text
    {"messages":[{"status":{"groupId":g}}]}. *)
Definition answer_body (groupId : string) : string :=
  "{" +:+ quoted "messages" +:+ ":[{" +:+ quoted "status" +:+ ":{"
      +:+ quoted "groupId" +:+ ":" +:+ groupId +:+ "}}]}".

Definition answer (groupId : string) : RequestResponse :=
  {| StatusCode := 200; Body := answer_body groupId |}.

Definition no_answer : RequestResponse := {| StatusCode := 0; Body := "" |}.

(** [jsonparser.GetInt] on the answers with groups 1, 3 and 5; on any other
    body the key path is not found. *)
Definition GetInt (body : string) (path : list string) : Z * option error :=
  if decide (path = groupId_path ∧ body = answer_body "1") then (1, None)
  else if decide (path = groupId_path ∧ body = answer_body "3") then (3, None)
  else if decide (path = groupId_path ∧ body = answer_body "5") then (5, None)
  else (0, Some "Key path not found").

(** 2016-10-06T09:28:39.220+0000. *)
Definition received : Time :=
  {| unix_nano := 1475746119220000000; zone_offset := 0 |}.

Definition Parse (layout value : string) : Time + error :=
  if decide (layout = receivedAt_layout ∧ value = "2016-10-06T09:28:39.220+0000")
  then inl received
  else inr ("cannot parse time " +:+ value).

Definition now (n : nat) : Time :=
  {| unix_nano := 1500000000000000000 + Z.of_nat n; zone_offset := 0 |}.

Fixpoint after_colon (s : string) : string :=
  match s with
  | EmptyString => EmptyString
  | String c rest => if decide (c = ":"%char) then rest else after_colon rest
  end.

Definition ID_String (id : MsgID) : string :=
  match id with
  | NewMsgID n => pretty n
  | NilMsgID => "null"
  end.

Definition collaborators (client : World → Request → RequestResponse * option error)
    : Collaborators :=
  {| clock := now;
     time_Parse := Parse;
     NewTelURNForCountry := λ number country, "tel:+" +:+ number;
     URN_Path := after_colon;
     MsgID_String := ID_String;
     GetTextAndAttachments := msg_Text;
     jsonparser_GetInt := GetInt;
     ConfigUsername := "username";
     ConfigPassword := "password";
     Domain := "courier.example.org";
     DecodeAndValidateJSON_ibStatusEnvelope := decode_ibStatusEnvelope;
     DecodeAndValidateJSON_infobipEnvelope := decode_infobipEnvelope;
     Backend_WriteMsg := λ _ _, None;
     Backend_WriteMsgStatus := λ _ _, None;
     ResponseWriter_Write := λ _ _, None;
     Client_Do := client |}.

(** The gateway accepts, rejects, or cannot be reached. *)
Definition accepting (w : World) (req : Request) : RequestResponse * option error :=
  (answer "1", None).

Definition rejecting (w : World) (req : Request) : RequestResponse * option error :=
  (answer "5", None).

Definition unreachable (w : World) (req : Request) : RequestResponse * option error :=
  (no_answer, Some "dial tcp: connection refused").

Definition channel : Channel :=
  {| UUID := "8eb23e93-5ecb-45ba-b726-3b064e0c56ab";
     Address := "2020";
     Country := "US";
     Config := <["username" := "Username"]> (<["password" := "Password"]> ∅);
     CallbackDomain := λ fallback, fallback |}.

Definition channel_without_password : Channel :=
  {| UUID := UUID channel; Address := Address channel; Country := Country channel;
     Config := <["username" := "Username"]> ∅;
     CallbackDomain := CallbackDomain channel |}.

Definition empty_world : World :=
  {| backend_msgs := []; backend_statuses := []; responses := [];
     http_requests := []; channel_logs := []; clock_reads := 0 |}.

Definition outgoing (c : Channel) : Msg :=
  {| msg_Channel := c; msg_ID := NewMsgID 10; msg_URN := "tel:+15551234567";
     msg_Text := "Simple Message"; msg_ReceivedOn := None; msg_ExternalID := "" |}.

(** Status batches: {"results":[{"messageId":12345,"status":{"groupName":g}},
    ...]}. *)
Definition status_record (id : Z) (groupName : string) : JSON :=
  JObject [("messageId", JNumber id);
           ("status", JObject [("groupName", JString groupName)])].

Definition status_body (records : list JSON) : HTTPBody :=
  WellFormed (JObject [("results", JArray records)]).

(** Inbound batches: {"results":[...],"messageCount":n,
    "pendingMessageCount":0}. *)
Definition inbound_record (text receivedAt : string) : JSON :=
  JObject [("messageId", JString "817790313235066447");
           ("from", JString "385916242493");
           ("text", JString text);
           ("receivedAt", JString receivedAt)].

Definition inbound_record_undated (text : string) : JSON :=
  JObject [("messageId", JString "817790313235066448");
           ("from", JString "385916242493");
           ("text", JString text)].

Definition inbound_body (count : Z) (records : list JSON) : HTTPBody :=
  WellFormed (JObject [("results", JArray records);
                       ("messageCount", JNumber count);
                       ("pendingMessageCount", JNumber 0)]).

(** An undated message followed by one whose timestamp does not parse. *)
Definition half_good_body : HTTPBody :=
  inbound_body 2 [inbound_record_undated "hello"; inbound_record "world" "yesterday"].

(** The records the bodies above decode to. *)
Definition delivered : ibStatus :=
  {| ibStatus_MessageID := 12345; ibStatus_Status_GroupName := "DELIVERED" |}.

Definition undated : infobipMessage :=
  {| MessageID := "817790313235066448"; From := "385916242493";
     Text := "hello"; ReceivedAt := "" |}.

Definition dated : infobipMessage :=
  {| MessageID := "817790313235066447"; From := "385916242493";
     Text := "hello"; ReceivedAt := "2016-10-06T09:28:39.220+0000" |}.

Definition misdated : infobipMessage :=
  {| MessageID := "817790313235066447"; From := "385916242493";
     Text := "world"; ReceivedAt := "yesterday" |}.

Definition blank : infobipMessage :=
  {| MessageID := "817790313235066447"; From := "385916242493";
     Text := ""; ReceivedAt := "yesterday" |}.

(** The request [SendMsg] builds for [outgoing channel]. *)
Definition sent_request : Request :=
  SetBasicAuth "Username" "Password"
    (Header_Set "Accept" "application/json"
       (Header_Set "Content-Type" "application/json"
          (NewRequest MethodPost sendURL
             (JObject
                [("messages",
                  JArray
                    [JObject
                       [("from", JString "2020");
                        ("destinations",
                         JArray [JObject [("to", JString "15551234567");
                                          ("messageId", JString "10")]]);
                        ("text", JString "Simple Message");
                        ("notifyContentType", JString "application/json");
                        ("intermediateReport", JBool true);
                        ("notifyUrl",
                         JString ("https://courier.example.org/c/ib/"
                                    +:+ "8eb23e93-5ecb-45ba-b726-3b064e0c56ab/delivered"))]])])))).

End Sample.

(** ** The handler value and its routes (infobip.go, lines 26-43) *)

(** [handler], that is [handlers.BaseHandler] as [NewBaseHandler] fills it:
    the channel type, the name, and whether [SetServer] has run. *)
Record handler := {
  ChannelType : string;
  Name : string;
  server_set : bool;
}.

Definition NewHandler : handler :=
  {| ChannelType := "IB"; Name := "Infobip"; server_set := false |}.

Definition SetServer (h : handler) : handler :=
  {| ChannelType := ChannelType h; Name := Name h; server_set := true |}.

(** The method values [h.ReceiveMessage] and [h.StatusMessage]. *)
Inductive HandlerFunc := h_ReceiveMessage | h_StatusMessage.

(** Modelled from the spec: [courier.Server] is outside the file, "the HTTP
    routing/dispatch framework that invokes this adapter per registered
    route" (section 1).  A route is what [AddHandlerRoute] is given; the
    server holds the routes it accepted, and may refuse one. *)
Record Route := {
  route_ChannelType : string;
  route_Method : string;
  route_Action : string;
  route_Func : HandlerFunc;
}.

Class Server := {
  Server_refuses : list Route → Route → option error;
}.

Definition AddHandlerRoute `{Server} (h : handler) (method action : string)
    (f : HandlerFunc) (routes : list Route) : option error * list Route :=
  let route := {| route_ChannelType := ChannelType h; route_Method := method;
                  route_Action := action; route_Func := f |} in
  match Server_refuses routes route with
  | Some err => (Some err, routes)
  | None => (None, routes ++ [route])
  end.

(** [Initialize] (infobip.go, lines 36-43). *)
Definition Initialize `{Server} (h : handler) (routes : list Route)
    : option error * (handler * list Route) :=
  let h := SetServer h in
  match AddHandlerRoute h "POST" "receive" h_ReceiveMessage routes with
  | (Some err, routes) => (Some err, (h, routes))
  | (None, routes) =>
      let '(err, routes) := AddHandlerRoute h "POST" "delivered" h_StatusMessage routes in
      (err, (h, routes))
  end.

(** What the server runs for a route. *)
Definition serve `{Collaborators} (f : HandlerFunc) : Channel → HTTPBody → M Result :=
  match f with
  | h_ReceiveMessage => ReceiveMessage
  | h_StatusMessage => StatusMessage
  end.

(** The outcome of a send: the status value goes with the state of the
    log. *)
Definition log_of (w : World) (s : MsgStatus) : option ChannelLog :=
  match status_Logs s with
  | [l] => channel_logs w !! l
  | _ => None
  end.

(** ** More sample collaborators *)
Module Trial.

(** The sample collaborators with another backend and another decoder of
    status batches. *)
Definition collaborators (write : World → Msg → option error)
    (decode_status : HTTPBody → ibStatusEnvelope + error) : Collaborators :=
  {| clock := Sample.now;
     time_Parse := Sample.Parse;
     NewTelURNForCountry := λ number country, "tel:+" +:+ number;
     URN_Path := Sample.after_colon;
     MsgID_String := Sample.ID_String;
     GetTextAndAttachments := msg_Text;
     jsonparser_GetInt := Sample.GetInt;
     ConfigUsername := "username";
     ConfigPassword := "password";
     Domain := "courier.example.org";
     DecodeAndValidateJSON_ibStatusEnvelope := decode_status;
     DecodeAndValidateJSON_infobipEnvelope := decode_infobipEnvelope;
     Backend_WriteMsg := write;
     Backend_WriteMsgStatus := λ _ _, None;
     ResponseWriter_Write := λ _ _, None;
     Client_Do := Sample.accepting |}.

(** A backend that is down. *)
Definition down (w : World) (m : Msg) : option error := Some "backend unavailable".

Definition refusing : Collaborators := collaborators down decode_ibStatusEnvelope.

(** A decoder of status batches for which a required array is one that is
    present: it lets the empty array through. *)
Definition lenient_decode : HTTPBody → ibStatusEnvelope + error :=
  decode_with (λ j, match decode_results decode_ibStatus j with
                    | inr e => inr e
                    | inl results => inl {| ibStatusEnvelope_Results := results |}
                    end).

Definition lenient : Collaborators := collaborators (λ _ _, None) lenient_decode.

(** A server that accepts every route, and one that has no room for the
    action "delivered". *)
Definition open_server : Server := {| Server_refuses := λ _ _, None |}.

Definition full_server : Server :=
  {| Server_refuses := λ _ route,
       if decide (route_Action route = "delivered") then Some "route refused" else None |}.

(** The sample message with another destination. *)
Definition outgoing_to (urn : URN) : Msg :=
  {| msg_Channel := Sample.channel; msg_ID := NewMsgID 10; msg_URN := urn;
     msg_Text := "Simple Message"; msg_ReceivedOn := None; msg_ExternalID := "" |}.


Definition channel_with_other_credentials : Channel :=
  {| UUID := UUID Sample.channel; Address := Address Sample.channel;
     Country := Country Sample.channel;
     Config := <["username" := "Other"]> (<["password" := "Secret"]> ∅);
     CallbackDomain := CallbackDomain Sample.channel |}.

(** The envelope [SendMsg] builds for [Sample.outgoing Sample.channel]. *)
Definition envelope : ibOutgoingEnvelope :=
  {| Messages :=
       [ {| out_From := "2020";
            Destinations := [ {| To := "15551234567"; dest_MessageID := "10" |} ];
            out_Text := "Simple Message";
            NotifyContentType := "application/json";
            IntermediateReport := true;
            NotifyURL := "https://courier.example.org/c/ib/"
                           +:+ "8eb23e93-5ecb-45ba-b726-3b064e0c56ab/delivered" |} ] |}.

End Trial.

(** ** Properties *)

Ltac run :=
  unfold bind, ret, index, WriteError, WriteIgnored, WriteMsgSuccess,
    WriteStatusSuccess, respond, WriteMsgStatus, WriteMsg, time_Now,
    MakeHTTPRequest, NewChannelLogFromRR, WithError; simpl.

Lemma infobipStatusMapping_lookup (groupName : string) :
  infobipStatusMapping !! groupName = status_table groupName.
Proof.
  unfold infobipStatusMapping, status_table.
  repeat (rewrite lookup_insert; case_decide;
          [subst groupName; reflexivity | rewrite decide_False by congruence]).
  apply lookup_empty.
Qed.

Lemma filter_text_idemp (results : list infobipMessage) :
  filter (λ rec, Text rec ≠ "") (filter (λ rec, Text rec ≠ "") results)
    = filter (λ rec, Text rec ≠ "") results.
Proof.
  induction results as [|rec rest IH]; [done|].
  destruct (decide (Text rec = "")).
  - by rewrite filter_cons_False by naive_solver.
  - by rewrite !filter_cons_True, IH by done.
Qed.

Lemma filter_text_all_empty (results : list infobipMessage) :
  Forall (λ rec, Text rec = "") results →
  filter (λ rec, Text rec ≠ "") results = [].
Proof.
  induction 1 as [|rec rest Hrec _ IH]; [done|].
  by rewrite filter_cons_False by naive_solver.
Qed.

Section Properties.
Context {env : Collaborators}.

(** *** The status handler *)

Lemma StatusMessage_decoded channel r first rest w :
  DecodeAndValidateJSON_ibStatusEnvelope r
    = inl {| ibStatusEnvelope_Results := first :: rest |} →
  StatusMessage channel r w = StatusMessage_first channel first w.
Proof.
  intros Hdec. unfold StatusMessage, StatusMessage_first. rewrite Hdec.
  run. destruct (infobipStatusMapping !! _); reflexivity.
Qed.

(** Go's index check: on a decoded batch with no record, [Results[0]]
    panics before anything is written. *)
Lemma StatusMessage_no_record channel r w :
  DecodeAndValidateJSON_ibStatusEnvelope r = inl {| ibStatusEnvelope_Results := [] |} →
  StatusMessage channel r w = (Panics "index out of range", w).
Proof. intros Hdec. unfold StatusMessage. rewrite Hdec. reflexivity. Qed.

(** [StatusMessage] reads the decoded slice through its head only. *)
Lemma StatusMessage_head channel r envelope w :
  DecodeAndValidateJSON_ibStatusEnvelope r = inl envelope →
  StatusMessage channel r w =
    match head (ibStatusEnvelope_Results envelope) with
    | Some first => StatusMessage_first channel first w
    | None => (Panics "index out of range", w)
    end.
Proof.
  intros Hdec. destruct envelope as [[|first rest]]; simpl.
  - by apply StatusMessage_no_record.
  - by eapply StatusMessage_decoded.
Qed.

(** C1: on a decoded status batch whose first record has group name g, the
    table maps PENDING and EXPIRED to Sent, DELIVERED to Delivered,
    REJECTED and UNDELIVERABLE to Failed, and the status handed to the
    backend carries that value and the record's message identifier; for any
    other g the handler answers with the unknown-status error, returns no
    event and stores no status. *)
Theorem C1_status_mapping_table channel r first rest w :
  DecodeAndValidateJSON_ibStatusEnvelope r
    = inl {| ibStatusEnvelope_Results := first :: rest |} →
  let g := ibStatus_Status_GroupName first in
  let out := StatusMessage channel r w in
  infobipStatusMapping !! g = status_table g
  ∧ (∀ v, status_table g = Some v →
       let status := NewMsgStatusForID channel (NewMsgID (ibStatus_MessageID first)) v in
       match Backend_WriteMsgStatus w status with
       | None =>
           (∃ werr, out.1 = Returns ([EventStatus status], werr))
           ∧ backend_statuses out.2 = backend_statuses w ++ [status]
           ∧ responses out.2 = responses w ++ [ResponseStatusSuccess [status]]
       | Some err => out = (Returns ([], Some err), w)
       end)
  ∧ (status_table g = None →
       out.1 = Returns ([], ResponseWriter_Write w (ResponseError (unknown_status g)))
       ∧ responses out.2 = responses w ++ [ResponseError (unknown_status g)]
       ∧ backend_statuses out.2 = backend_statuses w
       ∧ backend_msgs out.2 = backend_msgs w).
Proof.
  intros Hdec g out. subst out.
  rewrite (StatusMessage_decoded _ _ _ _ _ Hdec). unfold StatusMessage_first.
  fold g. rewrite infobipStatusMapping_lookup.
  split; [reflexivity|]. split.
  - intros v Hv. rewrite Hv. run.
    destruct (Backend_WriteMsgStatus w _) as [err|]; simpl; eauto.
  - intros Hnone. rewrite Hnone. run. eauto.
Qed.

(** C9: two decoded status batches with the same first record give the same
    result and the same world (status value, message identifier, events,
    error, responses); in particular a batch gives what its truncation to
    the first record gives. *)
Theorem C9_first_record_only channel r1 r2 envelope1 envelope2 w :
  DecodeAndValidateJSON_ibStatusEnvelope r1 = inl envelope1 →
  DecodeAndValidateJSON_ibStatusEnvelope r2 = inl envelope2 →
  head (ibStatusEnvelope_Results envelope1) = head (ibStatusEnvelope_Results envelope2)
  ∨ ibStatusEnvelope_Results envelope2 = take 1 (ibStatusEnvelope_Results envelope1) →
  StatusMessage channel r1 w = StatusMessage channel r2 w.
Proof.
  intros Hdec1 Hdec2 Hsame.
  rewrite (StatusMessage_head _ _ _ _ Hdec1), (StatusMessage_head _ _ _ _ Hdec2).
  assert (head (ibStatusEnvelope_Results envelope1)
          = head (ibStatusEnvelope_Results envelope2)) as ->; [|reflexivity].
  destruct Hsame as [Hhead | Htake]; [exact Hhead|].
  rewrite Htake. by destruct (ibStatusEnvelope_Results envelope1).
Qed.

(** With the decoder of the specification, a decoded status batch has a
    record. *)
Lemma decode_ibStatusEnvelope_nonempty r envelope :
  decode_ibStatusEnvelope r = inl envelope →
  ibStatusEnvelope_Results envelope ≠ [].
Proof.
  destruct r as [raw|j]; [done|].
  unfold decode_ibStatusEnvelope, decode_with, validate_ibStatusEnvelope.
  destruct (decode_results decode_ibStatus j) as [[|first rest]|e]; [done| |done].
  by intros [= <-].
Qed.

Lemma decode_ibStatusEnvelope_no_results fields :
  assoc "results" fields = None ∨ assoc "results" fields = Some (JArray []) →
  decode_ibStatusEnvelope (WellFormed (JObject fields))
    = inr (DecodeError_Error (ValidationError "results")).
Proof.
  unfold decode_ibStatusEnvelope, decode_with, validate_ibStatusEnvelope.
  simpl. by intros [-> | ->].
Qed.

(** C7: with the decoder of the specification, a status request whose JSON
    object has no results array, or an empty one, is answered with the
    validation error for that field before any record is looked at: no
    event, no status stored; and since that decoder only yields batches
    with a record, the access to the first record in [StatusMessage] never
    panics. *)
Theorem C7_empty_results_rejected channel fields w :
  (∀ r, DecodeAndValidateJSON_ibStatusEnvelope r = decode_ibStatusEnvelope r) →
  assoc "results" fields = None ∨ assoc "results" fields = Some (JArray []) →
  let refused := ResponseError (DecodeError_Error (ValidationError "results")) in
  let out := StatusMessage channel (WellFormed (JObject fields)) w in
  out.1 = Returns ([], ResponseWriter_Write w refused)
  ∧ responses out.2 = responses w ++ [refused]
  ∧ backend_statuses out.2 = backend_statuses w
  ∧ (∀ r' envelope,
       DecodeAndValidateJSON_ibStatusEnvelope r' = inl envelope →
       ∃ first, ibStatusEnvelope_Results envelope !! 0%nat = Some first)
  ∧ (∀ r' w' reason, (StatusMessage channel r' w').1 ≠ Panics reason).
Proof.
  intros Hdecoder Hmissing refused out.
  assert (∀ r' envelope,
            DecodeAndValidateJSON_ibStatusEnvelope r' = inl envelope →
            ∃ first rest, envelope = {| ibStatusEnvelope_Results := first :: rest |})
    as Hrecord.
  { intros r' [results] Hdec. rewrite Hdecoder in Hdec.
    apply decode_ibStatusEnvelope_nonempty in Hdec. simpl in Hdec.
    destruct results as [|first rest]; [done|]. by eauto. }
  assert (out = (Returns ([], ResponseWriter_Write w refused),
                 {| backend_msgs := backend_msgs w;
                    backend_statuses := backend_statuses w;
                    responses := responses w ++ [refused];
                    http_requests := http_requests w;
                    channel_logs := channel_logs w;
                    clock_reads := clock_reads w |})) as ->.
  { subst out. unfold StatusMessage.
    by rewrite Hdecoder, decode_ibStatusEnvelope_no_results. }
  simpl. repeat split; try done.
  - intros r' envelope Hdec.
    destruct (Hrecord _ _ Hdec) as (first & rest & ->). by eauto.
  - intros r' w' reason.
    destruct (DecodeAndValidateJSON_ibStatusEnvelope r') as [envelope|err] eqn:Hdec.
    + destruct (Hrecord _ _ Hdec) as (first & rest & ->).
      rewrite (StatusMessage_decoded _ _ _ _ _ Hdec). unfold StatusMessage_first.
      destruct (infobipStatusMapping !! _); run; [|done].
      by destruct (Backend_WriteMsgStatus w' _).
    + unfold StatusMessage. rewrite Hdec. by run.
Qed.

(** *** The loop of [ReceiveMessage] *)

(** A record whose text is empty is skipped. *)
Lemma ReceiveMessage_range_skip channel rec rest msgs w :
  Text rec = "" →
  ReceiveMessage_range channel (rec :: rest) msgs w
    = ReceiveMessage_range channel rest msgs w.
Proof. intros Htext. simpl. by rewrite decide_True. Qed.

Lemma ReceiveMessage_range_all_empty channel results msgs w :
  Forall (λ rec, Text rec = "") results →
  ReceiveMessage_range channel results msgs w = (Returns (inr msgs), w).
Proof.
  induction 1 as [|rec rest Htext _ IH]; [reflexivity|].
  by rewrite ReceiveMessage_range_skip.
Qed.

(** The records with empty text do not matter to the loop. *)
Lemma ReceiveMessage_range_filter channel results msgs w :
  ReceiveMessage_range channel results msgs w
    = ReceiveMessage_range channel (filter (λ rec, Text rec ≠ "") results) msgs w.
Proof.
  revert msgs w. induction results as [|rec rest IH]; intros msgs w; [reflexivity|].
  destruct (decide (Text rec = "")) as [Htext|Htext].
  - rewrite ReceiveMessage_range_skip, filter_cons_False by naive_solver. apply IH.
  - rewrite filter_cons_True by done. simpl. rewrite !decide_False by done.
    unfold bind. destruct (time_Now w) as [[now|?] w1]; [|reflexivity].
    destruct (if decide (ReceivedAt rec = "") then _ else _) as [date|err]; [|reflexivity].
    destruct (WriteMsg _ w1) as [[[err|]|?] w2]; try reflexivity. apply IH.
Qed.

(** The loop over a concatenation: the second part runs only when the first
    ran off its end. *)
Lemma ReceiveMessage_range_app channel results1 results2 msgs w :
  ReceiveMessage_range channel (results1 ++ results2) msgs w =
    match ReceiveMessage_range channel results1 msgs w with
    | (Returns (inr msgs'), w') => ReceiveMessage_range channel results2 msgs' w'
    | stopped => stopped
    end.
Proof.
  revert msgs w. induction results1 as [|rec rest IH]; intros msgs w; [reflexivity|].
  simpl. destruct (decide (Text rec = "")); [apply IH|].
  unfold bind. destruct (time_Now w) as [[now|?] w1]; [|reflexivity].
  destruct (if decide (ReceivedAt rec = "") then _ else _) as [date|err].
  - destruct (WriteMsg _ w1) as [[[err|]|?] w2]; try reflexivity. apply IH.
  - run. reflexivity.
Qed.

(** At a record with text whose timestamp [time.Parse] refuses, the loop
    reads the clock, answers with the parse error and returns. *)
Lemma ReceiveMessage_range_malformed channel bad after msgs err w :
  Text bad ≠ "" → ReceivedAt bad ≠ "" →
  time_Parse receivedAt_layout (ReceivedAt bad) = inr err →
  ReceiveMessage_range channel (bad :: after) msgs w
    = (let* _ := time_Now in let* werr := WriteError err in ret (inl ([], werr))) w.
Proof.
  intros Htext Hpresent Hparse. simpl.
  rewrite decide_False by done. run. rewrite decide_False by done.
  by rewrite Hparse.
Qed.

Lemma accepted_as_weaken channel lo hi lo' hi' rec m :
  (lo' ≤ lo)%nat → (hi ≤ hi')%nat →
  accepted_as channel lo hi rec m → accepted_as channel lo' hi' rec m.
Proof.
  intros Hlo Hhi (?&?&?&?&Hdate). repeat split; try done.
  destruct Hdate as [[Habsent (n&Hn&Hon)]|Hparsed]; [left|by right].
  split; [done|]. exists n. split; [lia|done].
Qed.

(** With a backend that accepts every write, the loop runs off a slice
    whose timestamps are absent or well formed, and stores one message per
    record with non-empty text, in order. *)
Lemma ReceiveMessage_range_accepts channel results msgs w :
  (∀ w0 m, Backend_WriteMsg w0 m = None) →
  Forall (λ rec, Text rec ≠ "" → timestamp_ok rec) results →
  ∃ new w',
    ReceiveMessage_range channel results msgs w = (Returns (inr (msgs ++ new)), w')
    ∧ stores_only w w' new
    ∧ Forall2 (accepted_as channel (clock_reads w) (clock_reads w'))
        (filter (λ rec, Text rec ≠ "") results) new.
Proof.
  intros Hbackend Hok. revert msgs w.
  induction Hok as [|rec rest Hrec _ IH]; intros msgs w.
  { exists [], w. rewrite app_nil_r. repeat split; simpl; try done.
    by rewrite app_nil_r. }
  destruct (decide (Text rec = "")) as [Htext|Htext].
  { rewrite ReceiveMessage_range_skip, filter_cons_False by naive_solver. apply IH. }
  rewrite filter_cons_True by done. simpl. rewrite decide_False by done.
  unfold bind at 1. unfold time_Now at 1.
  set (w1 := {| backend_msgs := backend_msgs w;
                backend_statuses := backend_statuses w;
                responses := responses w;
                http_requests := http_requests w;
                channel_logs := channel_logs w;
                clock_reads := S (clock_reads w) |}).
  assert (∃ date,
    (if decide (ReceivedAt rec = "") then inl (clock (clock_reads w))
     else time_Parse receivedAt_layout (ReceivedAt rec)) = inl date
    ∧ ((ReceivedAt rec = "" ∧ date = clock (clock_reads w))
       ∨ (ReceivedAt rec ≠ "" ∧ time_Parse receivedAt_layout (ReceivedAt rec) = inl date)))
    as (date & -> & Hdate).
  { destruct (Hrec Htext) as [Habsent|[date Hparse]].
    - exists (clock (clock_reads w)). rewrite decide_True by done. by eauto.
    - destruct (decide (ReceivedAt rec = "")); eauto. }
  set (msg := WithExternalID _ _).
  unfold bind, WriteMsg at 1. rewrite Hbackend.
  set (w2 := {| backend_msgs := backend_msgs w1 ++ [msg];
                backend_statuses := backend_statuses w1;
                responses := responses w1;
                http_requests := http_requests w1;
                channel_logs := channel_logs w1;
                clock_reads := clock_reads w1 |}).
  destruct (IH (msgs ++ [msg]) w2) as (new & w' & Hrun & Hstores & Hall).
  exists (msg :: new), w'. rewrite Hrun, <- (assoc_L (++)). split; [done|].
  destruct Hstores as (Hmsgs & ? & ? & ? & ? & Hclock). simpl in *.
  split.
  { repeat split; try done; [|lia]. by rewrite Hmsgs, <- (assoc_L (++)). }
  constructor.
  - repeat split; try done.
    destruct Hdate as [[Habsent ->]|[Hpresent Hparse]]; [left|right; eauto].
    split; [done|]. exists (clock_reads w). split; [lia|done].
  - eapply Forall2_impl; [exact Hall|].
    intros rec' m'. apply accepted_as_weaken; lia.
Qed.

(** *** The inbound handler *)

Lemma ReceiveMessage_ignored channel r ie w :
  DecodeAndValidateJSON_infobipEnvelope r = inl ie →
  MessageCount ie = 0 ∨ Forall (λ rec, Text rec = "") (Results ie) →
  ReceiveMessage channel r w
    = (let* werr := WriteIgnored "ignoring request, no message" in ret ([], werr)) w.
Proof.
  intros Hdec Hcase. unfold ReceiveMessage. rewrite Hdec.
  destruct (decide (MessageCount ie = 0)) as [Hzero|Hnonzero]; [reflexivity|].
  destruct Hcase as [Hzero|Hempty]; [done|].
  unfold bind at 1. by rewrite ReceiveMessage_range_all_empty.
Qed.

Lemma ReceiveMessage_nonzero channel r ie w :
  DecodeAndValidateJSON_infobipEnvelope r = inl ie →
  MessageCount ie ≠ 0 →
  ReceiveMessage channel r w = ReceiveMessage_results channel (Results ie) w.
Proof.
  intros Hdec Hcount. unfold ReceiveMessage. by rewrite Hdec, decide_False.
Qed.

Lemma ReceiveMessage_results_filter channel results w :
  ReceiveMessage_results channel results w
    = ReceiveMessage_results channel (filter (λ rec, Text rec ≠ "") results) w.
Proof.
  unfold ReceiveMessage_results, bind.
  by rewrite (ReceiveMessage_range_filter _ results).
Qed.

(** C5: a decoded inbound batch whose declared count is zero, or whose
    records all have empty text (whatever the count), is answered with the
    ignored response - neither the error nor the success response - with no
    event, and nothing but that response changes in the world: the backend
    stores no message. *)
Theorem C5_ignored_batches channel r ie w :
  DecodeAndValidateJSON_infobipEnvelope r = inl ie →
  MessageCount ie = 0 ∨ Forall (λ rec, Text rec = "") (Results ie) →
  let ignored := ResponseIgnored "ignoring request, no message" in
  let out := ReceiveMessage channel r w in
  out.1 = Returns ([], ResponseWriter_Write w ignored)
  ∧ responses out.2 = responses w ++ [ignored]
  ∧ (∀ err, ignored ≠ ResponseError err)
  ∧ (∀ msgs, ignored ≠ ResponseMsgSuccess msgs)
  ∧ backend_msgs out.2 = backend_msgs w
  ∧ backend_statuses out.2 = backend_statuses w
  ∧ http_requests out.2 = http_requests w.
Proof.
  intros Hdec Hcase ignored out. subst out.
  rewrite (ReceiveMessage_ignored _ _ _ _ Hdec Hcase). run.
  repeat split; done.
Qed.

(** C6 (amended): in a decoded batch with nonzero declared count, let [bad]
    be a record with text whose timestamp does not parse, reached after
    records whose timestamps are absent or well formed, the backend
    accepting every write.  The call answers with the parse error and
    returns no event; the backend has stored exactly the messages of the
    records with text that come before [bad], each with its parsed
    timestamp or, when the timestamp is absent, with a reading of the clock
    taken during the call; it has stored nothing when no record with text
    comes before [bad]. *)
Theorem C6_malformed_timestamp channel r ie before bad after err w :
  DecodeAndValidateJSON_infobipEnvelope r = inl ie →
  MessageCount ie ≠ 0 →
  Results ie = before ++ bad :: after →
  (∀ w0 m, Backend_WriteMsg w0 m = None) →
  Forall (λ rec, Text rec ≠ "" → timestamp_ok rec) before →
  Text bad ≠ "" → ReceivedAt bad ≠ "" →
  time_Parse receivedAt_layout (ReceivedAt bad) = inr err →
  let out := ReceiveMessage channel r w in
  (∃ werr, out.1 = Returns ([], werr))
  ∧ responses out.2 = responses w ++ [ResponseError err]
  ∧ (∃ new, backend_msgs out.2 = backend_msgs w ++ new
            ∧ Forall2 (accepted_as channel (clock_reads w) (clock_reads out.2))
                (filter (λ rec, Text rec ≠ "") before) new)
  ∧ (Forall (λ rec, Text rec = "") before → backend_msgs out.2 = backend_msgs w).
Proof.
  intros Hdec Hcount Hsplit Hbackend Hbefore Htext Hpresent Hparse out.
  destruct (ReceiveMessage_range_accepts channel before [] w Hbackend Hbefore)
    as (new & w' & Hrun & Hstores & Hall).
  destruct Hstores as (Hmsgs & _ & Hresp & _ & _ & Hclock).
  assert (out = (Returns ([], ResponseWriter_Write
                   {| backend_msgs := backend_msgs w';
                      backend_statuses := backend_statuses w';
                      responses := responses w';
                      http_requests := http_requests w';
                      channel_logs := channel_logs w';
                      clock_reads := S (clock_reads w') |} (ResponseError err)),
                 {| backend_msgs := backend_msgs w';
                    backend_statuses := backend_statuses w';
                    responses := responses w' ++ [ResponseError err];
                    http_requests := http_requests w';
                    channel_logs := channel_logs w';
                    clock_reads := S (clock_reads w') |})) as ->.
  { subst out. rewrite (ReceiveMessage_nonzero _ _ _ _ Hdec Hcount).
    unfold ReceiveMessage_results, bind at 1.
    rewrite Hsplit, ReceiveMessage_range_app, Hrun.
    by rewrite (ReceiveMessage_range_malformed _ _ _ _ err). }
  simpl. split; [by eauto|]. split; [by rewrite Hresp|]. split.
  - exists new. split; [done|].
    eapply Forall2_impl; [exact Hall|].
    intros rec' m'. apply accepted_as_weaken; lia.
  - intros Hempty. rewrite Hmsgs.
    rewrite (filter_text_all_empty _ Hempty) in Hall.
    apply Forall2_nil_inv_l in Hall as ->. by rewrite app_nil_r.
Qed.

(** C10: the declared count is read by the zero test only.  Two decoded
    batches with nonzero counts (equal or not to the number of records) and
    the same records with non-empty text give the same result and the same
    world; and when the backend accepts every write and those records have
    absent or well formed timestamps, the backend has stored exactly one
    message per record with non-empty text, in order. *)
Theorem C10_count_only_tested_for_zero channel r1 r2 ie1 ie2 w :
  DecodeAndValidateJSON_infobipEnvelope r1 = inl ie1 →
  DecodeAndValidateJSON_infobipEnvelope r2 = inl ie2 →
  MessageCount ie1 ≠ 0 → MessageCount ie2 ≠ 0 →
  filter (λ rec, Text rec ≠ "") (Results ie1) = filter (λ rec, Text rec ≠ "") (Results ie2) →
  let out := ReceiveMessage channel r1 w in
  out = ReceiveMessage channel r2 w
  ∧ ((∀ w0 m, Backend_WriteMsg w0 m = None) →
     Forall timestamp_ok (filter (λ rec, Text rec ≠ "") (Results ie1)) →
     ∃ new, backend_msgs out.2 = backend_msgs w ++ new
            ∧ Forall2 (accepted_as channel (clock_reads w) (clock_reads out.2))
                (filter (λ rec, Text rec ≠ "") (Results ie1)) new).
Proof.
  intros Hdec1 Hdec2 Hcount1 Hcount2 Hsame out. subst out.
  rewrite (ReceiveMessage_nonzero _ _ _ _ Hdec1 Hcount1),
          (ReceiveMessage_nonzero _ _ _ _ Hdec2 Hcount2).
  rewrite (ReceiveMessage_results_filter _ (Results ie1)),
          (ReceiveMessage_results_filter _ (Results ie2)), <- Hsame.
  split; [reflexivity|]. intros Hbackend Hok.
  destruct (ReceiveMessage_range_accepts channel
              (filter (λ rec, Text rec ≠ "") (Results ie1)) [] w Hbackend)
    as (new & w' & Hrun & Hstores & Hall).
  { eapply Forall_impl; [exact Hok|]. by intros. }
  unfold ReceiveMessage_results, bind. rewrite Hrun. simpl.
  destruct Hstores as (Hmsgs & _).
  rewrite filter_text_idemp in Hall.
  exists new. destruct new as [|m new']; run; (split; [done|]).
  - eapply Forall2_impl; [exact Hall|]. naive_solver.
  - eapply Forall2_impl; [exact Hall|]. naive_solver.
Qed.

(** *** The outbound send *)

Lemma StringConfigForKey_empty (c : Channel) (key : string) :
  StringConfigForKey c key "" = "" ↔ Config c !! key = None ∨ Config c !! key = Some "".
Proof.
  unfold StringConfigForKey. destruct (Config c !! key) as [value|]; simpl.
  - split; [intros ->; by right|]. by intros [|[= ->]].
  - split; [by left|done].
Qed.

(** C3: when the username or the password of the channel is absent or
    empty, [SendMsg] returns no status and the configuration error, and the
    world is untouched: no request goes to the gateway. *)
Theorem C3_missing_credentials msg w :
  (Config (msg_Channel msg) !! ConfigUsername = None
   ∨ Config (msg_Channel msg) !! ConfigUsername = Some "")
  ∨ (Config (msg_Channel msg) !! ConfigPassword = None
     ∨ Config (msg_Channel msg) !! ConfigPassword = Some "") →
  let out := SendMsg msg w in
  (out.1 = Returns (None, Some (Errorf "no username set for IB channel"))
   ∨ out.1 = Returns (None, Some (Errorf "no password set for IB channel")))
  ∧ out.2 = w
  ∧ http_requests out.2 = http_requests w.
Proof.
  intros Hmissing out. subst out. unfold SendMsg.
  destruct (decide (StringConfigForKey (msg_Channel msg) ConfigUsername "" = ""))
    as [Huser|Huser]; [simpl; by eauto|].
  destruct (decide (StringConfigForKey (msg_Channel msg) ConfigPassword "" = ""))
    as [Hpass|Hpass]; [simpl; by eauto|].
  rewrite StringConfigForKey_empty in Huser, Hpass. tauto.
Qed.

Lemma alter_last_lookup (f : ChannelLog → ChannelLog) (logs : list ChannelLog) log :
  alter f (length logs) (logs ++ [log]) !! length logs = Some (f log).
Proof. by rewrite list_lookup_alter_eq, list_lookup_middle. Qed.

(** C4: when the credentials are set and the HTTP call for the request that
    [SendMsg] issued fails with an error, [SendMsg] returns a nil error and
    the status built with value Errored, whose one log is the record of the
    attempt, which carries the transport error. *)
Theorem C4_transport_error_degrades msg req rr err w :
  credentials_set (msg_Channel msg) →
  http_requests (SendMsg msg w).2 = http_requests w ++ [req] →
  Client_Do w req = (rr, Some err) →
  let out := SendMsg msg w in
  let log := length (channel_logs w) in
  let status := AddLog (NewMsgStatusForID (msg_Channel msg) (msg_ID msg) MsgErrored) log in
  out.1 = Returns (Some status, None)
  ∧ status_Status status = MsgErrored
  ∧ status_Logs status = [log]
  ∧ channel_logs out.2 !! log
      = Some {| log_Description := "Message Send Error";
                log_Channel := msg_Channel msg; log_MsgID := msg_ID msg;
                log_RR := rr; log_Error := Some err |}
  ∧ backend_statuses out.2 = backend_statuses w.
Proof.
  intros [Huser Hpass] Hreq Hfail out log status. subst out.
  revert Hreq. unfold SendMsg. rewrite !decide_False by done.
  unfold json_Encode. run.
  match goal with |- context [Client_Do w ?sent] => set (req0 := sent) end.
  destruct (Client_Do w req0) as [rr0 err0] eqn:Hdo.
  assert (http_requests w ++ [req0] = http_requests w ++ [req] → req0 = req) as Hsame.
  { intros Heq. by apply app_inj_tail in Heq as [_ ->]. }
  destruct err0 as [err0|]; simpl.
  - intros Heq. apply Hsame in Heq. subst req0. rewrite Heq, Hfail in Hdo.
    injection Hdo as <- <-. repeat split; try done.
    apply alter_last_lookup.
  - destruct (jsonparser_GetInt (Body rr0) groupId_path) as [groupID gerr].
    destruct (decide _); simpl; intros Heq; apply Hsame in Heq; subst req0;
      rewrite Heq, Hfail in Hdo; done.
Qed.

(** C2: when the credentials are set and the HTTP call for the request that
    [SendMsg] issued returns a response without error, the returned status
    is Wired exactly when [jsonparser.GetInt] finds an integer at
    messages[0].status.groupId (nil error) and that integer is 1 or 3; in
    every other case it is the status built with value Errored, whose log
    carries the error naming the group read. *)
Theorem C2_wired_iff_group_1_or_3 msg req rr w :
  credentials_set (msg_Channel msg) →
  http_requests (SendMsg msg w).2 = http_requests w ++ [req] →
  Client_Do w req = (rr, None) →
  let out := SendMsg msg w in
  let read := jsonparser_GetInt (Body rr) groupId_path in
  let accepted := read.2 = None ∧ (read.1 = 1 ∨ read.1 = 3) in
  let log := length (channel_logs w) in
  let errored := AddLog (NewMsgStatusForID (msg_Channel msg) (msg_ID msg) MsgErrored) log in
  ∃ status,
    out.1 = Returns (Some status, None)
    ∧ (status_Status status = MsgWired ↔ accepted)
    ∧ (accepted → status = SetStatus errored MsgWired)
    ∧ (¬ accepted →
         status = errored
         ∧ status_Status status = MsgErrored
         ∧ channel_logs out.2 !! log
             = Some {| log_Description := "Message Send Error";
                       log_Channel := msg_Channel msg; log_MsgID := msg_ID msg;
                       log_RR := rr;
                       log_Error := Some (Errorf ("received error status: '"
                                                   +:+ pretty read.1 +:+ "'")) |}).
Proof.
  intros [Huser Hpass] Hreq Hdone out read accepted log errored.
  subst out. revert Hreq. unfold SendMsg. rewrite !decide_False by done.
  unfold json_Encode. run.
  match goal with |- context [Client_Do w ?sent] => set (req0 := sent) end.
  destruct (Client_Do w req0) as [rr0 err0] eqn:Hdo.
  assert (http_requests w ++ [req0] = http_requests w ++ [req] → req0 = req) as Hsame.
  { intros Heq. by apply app_inj_tail in Heq as [_ ->]. }
  assert (http_requests w ++ [req0] = http_requests w ++ [req] →
          rr0 = rr ∧ err0 = None) as Hanswer.
  { intros Heq. apply Hsame in Heq. subst req0. rewrite Heq, Hdone in Hdo.
    by injection Hdo as <- <-. }
  destruct err0 as [err0|]; simpl.
  { intros Heq. by destruct (Hanswer Heq). }
  destruct (jsonparser_GetInt (Body rr0) groupId_path) as [groupID gerr] eqn:Hread.
  destruct (decide (gerr ≠ None ∨ groupID ≠ 1 ∧ groupID ≠ 3)) as [Hbad|Hgood];
    simpl; intros Heq; destruct (Hanswer Heq) as [-> _];
    subst accepted read; rewrite Hread; simpl.
  - eexists. split; [reflexivity|]. simpl.
    assert (¬ (gerr = None ∧ (groupID = 1 ∨ groupID = 3))) as Hnot.
    { intros [-> Hgroup]. destruct Hbad as [|[]]; [done|]. by destruct Hgroup. }
    repeat split; try done. apply alter_last_lookup.
  - eexists. split; [reflexivity|]. simpl.
    assert (gerr = None ∧ (groupID = 1 ∨ groupID = 3)) as Hyes.
    { destruct gerr as [e|]; [destruct Hgood; by left|]. split; [done|].
      destruct (decide (groupID = 1)); [by left|].
      destruct (decide (groupID = 3)); [by right|]. destruct Hgood; by right. }
    split; [by split|]. split; [done|]. intros Hnot. by destruct Hnot.
Qed.

Lemma TrimLeft_plus (s : string) :
  ∃ n, s = replicate_char n "+" +:+ TrimLeft s "+"
       ∧ ∀ rest, TrimLeft s "+" ≠ String "+" rest.
Proof.
  induction s as [|c s IH].
  - exists 0%nat. by split.
  - simpl. destruct (decide ("+"%char = c)) as [<-|Hc]; simpl.
    + destruct IH as (n & Hn & Hrest). exists (S n).
      split; [exact (f_equal (String "+") Hn) | exact Hrest].
    + exists 0%nat. split; [done|]. by intros rest [= ->].
Qed.

(** C8: when the credentials are set, [SendMsg] hands one request to the
    HTTP client, and in its JSON body the first destination of the first
    message has for [to] the path of the destination URN with its leading
    "+" signs dropped ("+15551234567" becomes "15551234567") and for
    [messageId] the string form of the message identifier, while the
    message has notifyContentType "application/json", intermediateReport
    true, and for notifyUrl the text https://, the callback domain of the
    channel, /c/ib/, the channel identifier, /delivered. *)
Theorem C8_outbound_envelope msg w :
  credentials_set (msg_Channel msg) →
  let out := SendMsg msg w in
  let message := [Key "messages"; Index 0] in
  let destination := message ++ [Key "destinations"; Index 0] in
  let to := TrimLeft (URN_Path (msg_URN msg)) "+" in
  ∃ req,
    http_requests out.2 = http_requests w ++ [req]
    ∧ at_path (destination ++ [Key "to"]) (req_Body req) = Some (JString to)
    ∧ (∃ n, URN_Path (msg_URN msg) = replicate_char n "+" +:+ to)
    ∧ (∀ rest, to ≠ String "+" rest)
    ∧ TrimLeft "+15551234567" "+" = "15551234567"
    ∧ at_path (destination ++ [Key "messageId"]) (req_Body req)
        = Some (JString (MsgID_String (msg_ID msg)))
    ∧ at_path (message ++ [Key "notifyContentType"]) (req_Body req)
        = Some (JString "application/json")
    ∧ at_path (message ++ [Key "intermediateReport"]) (req_Body req)
        = Some (JBool true)
    ∧ at_path (message ++ [Key "notifyUrl"]) (req_Body req)
        = Some (JString ("https://" +:+ CallbackDomain (msg_Channel msg) Domain
                           +:+ "/c/ib/" +:+ UUID (msg_Channel msg) +:+ "/delivered")).
Proof.
  intros [Huser Hpass] out message destination to. subst out.
  unfold SendMsg. rewrite !decide_False by done.
  unfold json_Encode. run.
  match goal with |- context [Client_Do w ?sent] => set (req0 := sent) end.
  exists req0. split.
  { destruct (Client_Do w req0) as [rr0 [err0|]]; simpl; [done|].
    destruct (jsonparser_GetInt (Body rr0) groupId_path) as [groupID gerr].
    by destruct (decide _). }
  destruct (TrimLeft_plus (URN_Path (msg_URN msg))) as (n & Hn & Hrest).
  repeat split; try done. by exists n.
Qed.

End Properties.

(** ** The properties on the sample collaborators *)

(** The payload quoted in infobip.go and in section 8 of the specification:
    one message is stored, with the sender, the text and the timestamp of
    the record, and the call succeeds. *)
Example ReceiveMessage_sample :
  let env := Sample.collaborators Sample.accepting in
  let body := Sample.inbound_body 1
                [Sample.inbound_record "hello" "2016-10-06T09:28:39.220+0000"] in
  let stored :=
    {| msg_Channel := Sample.channel; msg_ID := NilMsgID;
       msg_URN := "tel:+385916242493"; msg_Text := "hello";
       msg_ReceivedOn := Some Sample.received;
       msg_ExternalID := "817790313235066447" |} in
  let out := ReceiveMessage Sample.channel body Sample.empty_world in
  out.1 = Returns ([EventMsg stored], None)
  ∧ backend_msgs out.2 = [stored]
  ∧ responses out.2 = [ResponseMsgSuccess [stored]].
Proof. repeat split; vm_compute; reflexivity. Qed.

Example TrimLeft_sample : TrimLeft "++15551234567" "+" = "15551234567".
Proof. reflexivity. Qed.

(** A batch that declares no message and carries none is ignored. *)
Example ReceiveMessage_empty_sample :
  let env := Sample.collaborators Sample.accepting in
  let out := ReceiveMessage Sample.channel (Sample.inbound_body 0 []) Sample.empty_world in
  out.1 = Returns ([], None)
  ∧ responses out.2 = [ResponseIgnored "ignoring request, no message"]
  ∧ backend_msgs out.2 = [].
Proof. repeat split; vm_compute; reflexivity. Qed.

(** A delivery report is stored as Delivered; an unknown group is refused. *)
Example StatusMessage_sample :
  let env := Sample.collaborators Sample.accepting in
  let stored := NewMsgStatusForID Sample.channel (NewMsgID 12345) MsgDelivered in
  let out := StatusMessage Sample.channel
               (Sample.status_body [Sample.status_record 12345 "DELIVERED"])
               Sample.empty_world in
  out.1 = Returns ([EventStatus stored], None)
  ∧ backend_statuses out.2 = [stored].
Proof. repeat split; vm_compute; reflexivity. Qed.

Example StatusMessage_unknown_sample :
  let env := Sample.collaborators Sample.accepting in
  let out := StatusMessage Sample.channel
               (Sample.status_body [Sample.status_record 12345 "BOGUS"])
               Sample.empty_world in
  responses out.2
    = [ResponseError ("unknown status 'BOGUS', must be one of PENDING, DELIVERED, "
                        +:+ "EXPIRED, REJECTED or UNDELIVERABLE")]
  ∧ backend_statuses out.2 = [].
Proof. repeat split; vm_compute; reflexivity. Qed.

(** The gateway answers with group 5: the status stays Errored and its log
    names the group. *)
Example SendMsg_rejected_sample :
  let env := Sample.collaborators Sample.rejecting in
  let out := SendMsg (Sample.outgoing Sample.channel) Sample.empty_world in
  out.1 = Returns
            (Some (AddLog (NewMsgStatusForID Sample.channel (NewMsgID 10) MsgErrored) 0),
             None)
  ∧ http_requests out.2 = [Sample.sent_request]
  ∧ log_Error <$> channel_logs out.2 !! 0%nat = Some (Some "received error status: '5'").
Proof. repeat split; vm_compute; reflexivity. Qed.

Lemma C1_status_mapping_table_witness :
  let env := Sample.collaborators Sample.accepting in
  let r := Sample.status_body [Sample.status_record 12345 "DELIVERED";
                               Sample.status_record 7 "BOGUS"] in
  DecodeAndValidateJSON_ibStatusEnvelope r
    = inl {| ibStatusEnvelope_Results :=
               [Sample.delivered;
                {| ibStatus_MessageID := 7; ibStatus_Status_GroupName := "BOGUS" |}] |}
  ∧ infobipStatusMapping !! "DELIVERED" = status_table "DELIVERED".
Proof.
  intros env r.
  assert (DecodeAndValidateJSON_ibStatusEnvelope r
    = inl {| ibStatusEnvelope_Results :=
               [Sample.delivered;
                {| ibStatus_MessageID := 7; ibStatus_Status_GroupName := "BOGUS" |}] |})
    as Hdec by (vm_compute; reflexivity).
  split; [exact Hdec|].
  exact (proj1 (C1_status_mapping_table Sample.channel r _ _ Sample.empty_world Hdec)).
Defined.

Lemma C9_first_record_only_witness :
  let env := Sample.collaborators Sample.accepting in
  let r1 := Sample.status_body [Sample.status_record 12345 "DELIVERED";
                                Sample.status_record 7 "REJECTED"] in
  let r2 := Sample.status_body [Sample.status_record 12345 "DELIVERED"] in
  StatusMessage Sample.channel r1 Sample.empty_world
    = StatusMessage Sample.channel r2 Sample.empty_world.
Proof.
  intros env r1 r2.
  apply (C9_first_record_only Sample.channel r1 r2
           {| ibStatusEnvelope_Results :=
                [Sample.delivered;
                 {| ibStatus_MessageID := 7; ibStatus_Status_GroupName := "REJECTED" |}] |}
           {| ibStatusEnvelope_Results := [Sample.delivered] |}).
  - vm_compute; reflexivity.
  - vm_compute; reflexivity.
  - left. reflexivity.
Defined.

Lemma C7_empty_results_rejected_witness :
  let env := Sample.collaborators Sample.accepting in
  let out := StatusMessage Sample.channel (Sample.status_body []) Sample.empty_world in
  responses out.2 = [ResponseError "field 'results' is required"]
  ∧ backend_statuses out.2 = [].
Proof.
  intros env out.
  destruct (C7_empty_results_rejected Sample.channel [("results", JArray [])]
              Sample.empty_world) as (_ & Hresponses & Hstatuses & _).
  - intros r. reflexivity.
  - right. reflexivity.
  - split; [exact Hresponses | exact Hstatuses].
Defined.

Lemma C5_ignored_batches_witness :
  let env := Sample.collaborators Sample.accepting in
  let body := Sample.inbound_body 3 [Sample.inbound_record "" "yesterday"] in
  let out := ReceiveMessage Sample.channel body Sample.empty_world in
  DecodeAndValidateJSON_infobipEnvelope body
    = inl {| PendingMessageCount := 0; MessageCount := 3; Results := [Sample.blank] |}
  ∧ responses out.2 = [ResponseIgnored "ignoring request, no message"]
  ∧ backend_msgs out.2 = [].
Proof.
  intros env body out.
  assert (DecodeAndValidateJSON_infobipEnvelope body
    = inl {| PendingMessageCount := 0; MessageCount := 3; Results := [Sample.blank] |})
    as Hdec by (vm_compute; reflexivity).
  split; [exact Hdec|].
  destruct (C5_ignored_batches Sample.channel body _ Sample.empty_world Hdec)
    as (_ & Hresponses & _ & _ & Hmsgs & _).
  - right. repeat constructor.
  - split; [exact Hresponses | exact Hmsgs].
Defined.

(** The batch of [Sample.half_good_body]: the undated message is stored
    before the timestamp of the second record is refused. *)
Lemma C6_partial_persistence :
  ¬ no_partial_persistence (env := Sample.collaborators Sample.accepting)
      Sample.channel Sample.half_good_body Sample.empty_world.
Proof.
  intros Hclaim.
  destruct (Hclaim
              {| PendingMessageCount := 0; MessageCount := 2;
                 Results := [Sample.undated; Sample.misdated] |}
              Sample.misdated "cannot parse time yesterday") as [_ Hnone].
  - vm_compute; reflexivity.
  - simpl. apply list_elem_of_further, list_elem_of_here.
  - discriminate.
  - discriminate.
  - vm_compute; reflexivity.
  - vm_compute in Hnone. discriminate Hnone.
Qed.

Lemma C6_malformed_timestamp_witness :
  let env := Sample.collaborators Sample.accepting in
  let out := ReceiveMessage Sample.channel Sample.half_good_body Sample.empty_world in
  responses out.2 = [ResponseError "cannot parse time yesterday"]
  ∧ ∃ new, backend_msgs out.2 = new ∧ length new = 1%nat.
Proof.
  intros env out.
  destruct (C6_malformed_timestamp Sample.channel Sample.half_good_body
              {| PendingMessageCount := 0; MessageCount := 2;
                 Results := [Sample.undated; Sample.misdated] |}
              [Sample.undated] Sample.misdated [] "cannot parse time yesterday"
              Sample.empty_world)
    as (_ & Hresponses & (new & Hmsgs & Hall) & _).
  - vm_compute; reflexivity.
  - discriminate.
  - reflexivity.
  - intros w0 m. reflexivity.
  - repeat constructor.
  - discriminate.
  - discriminate.
  - vm_compute; reflexivity.
  - split; [exact Hresponses|]. exists new. split; [exact Hmsgs|].
    symmetry. exact (Forall2_length _ _ _ Hall).
Defined.

Lemma C10_count_only_tested_for_zero_witness :
  let env := Sample.collaborators Sample.accepting in
  let records := [Sample.inbound_record "hello" "2016-10-06T09:28:39.220+0000";
                  Sample.inbound_record "" "";
                  Sample.inbound_record_undated "hello"] in
  let five := Sample.inbound_body 5 records in
  let two := Sample.inbound_body 2 records in
  let out := ReceiveMessage Sample.channel five Sample.empty_world in
  out = ReceiveMessage Sample.channel two Sample.empty_world
  ∧ ∃ new, backend_msgs out.2 = new ∧ length new = 2%nat.
Proof.
  intros env records five two out.
  destruct (C10_count_only_tested_for_zero Sample.channel five two
              {| PendingMessageCount := 0; MessageCount := 5;
                 Results := [Sample.dated;
                             {| MessageID := "817790313235066447";
                                From := "385916242493"; Text := ""; ReceivedAt := "" |};
                             Sample.undated] |}
              {| PendingMessageCount := 0; MessageCount := 2;
                 Results := [Sample.dated;
                             {| MessageID := "817790313235066447";
                                From := "385916242493"; Text := ""; ReceivedAt := "" |};
                             Sample.undated] |}
              Sample.empty_world) as [Hsame Hstored].
  - vm_compute; reflexivity.
  - vm_compute; reflexivity.
  - discriminate.
  - discriminate.
  - reflexivity.
  - split; [exact Hsame|].
    destruct Hstored as (new & Hmsgs & Hall).
    + intros w0 m. reflexivity.
    + change (Forall timestamp_ok [Sample.dated; Sample.undated]).
      constructor; [right; exists Sample.received; vm_compute; reflexivity|].
      constructor; [left; reflexivity | constructor].
    + exists new. split; [exact Hmsgs|].
      symmetry. exact (Forall2_length _ _ _ Hall).
Defined.

Lemma C3_missing_credentials_witness :
  let env := Sample.collaborators Sample.accepting in
  let out := SendMsg (Sample.outgoing Sample.channel_without_password) Sample.empty_world in
  out.2 = Sample.empty_world ∧ http_requests out.2 = [].
Proof.
  intros env out.
  destruct (C3_missing_credentials (Sample.outgoing Sample.channel_without_password)
              Sample.empty_world) as (_ & Hworld & Hrequests).
  - right. left. vm_compute; reflexivity.
  - split; [exact Hworld | exact Hrequests].
Defined.

Lemma C4_transport_error_degrades_witness :
  let env := Sample.collaborators Sample.unreachable in
  let out := SendMsg (Sample.outgoing Sample.channel) Sample.empty_world in
  out.1 = Returns
            (Some (AddLog (NewMsgStatusForID Sample.channel (NewMsgID 10) MsgErrored) 0),
             None)
  ∧ log_Error <$> channel_logs out.2 !! 0%nat = Some (Some "dial tcp: connection refused").
Proof.
  intros env out.
  destruct (C4_transport_error_degrades (Sample.outgoing Sample.channel)
               Sample.sent_request Sample.no_answer "dial tcp: connection refused" Sample.empty_world)
    as (Hout & _ & _ & Hlog & _).
  - split; vm_compute; discriminate.
  - vm_compute; reflexivity.
  - reflexivity.
  - split; [exact Hout|]. subst out. simpl in Hlog. by rewrite Hlog.
Defined.

Lemma C2_wired_iff_group_1_or_3_witness :
  let env := Sample.collaborators Sample.accepting in
  let out := SendMsg (Sample.outgoing Sample.channel) Sample.empty_world in
  ∃ status, out.1 = Returns (Some status, None) ∧ status_Status status = MsgWired.
Proof.
  intros env out.
  destruct (C2_wired_iff_group_1_or_3 (Sample.outgoing Sample.channel)
               Sample.sent_request (Sample.answer "1") Sample.empty_world)
    as (status & Hout & Hwired & _).
  - split; vm_compute; discriminate.
  - vm_compute; reflexivity.
  - reflexivity.
  - exists status. split; [exact Hout|]. apply Hwired.
    split; [reflexivity | left; reflexivity].
Defined.

Lemma C8_outbound_envelope_witness :
  let env := Sample.collaborators Sample.accepting in
  let out := SendMsg (Sample.outgoing Sample.channel) Sample.empty_world in
  ∃ req,
    http_requests out.2 = [req]
    ∧ at_path [Key "messages"; Index 0; Key "destinations"; Index 0; Key "to"]
        (req_Body req) = Some (JString "15551234567")
    ∧ at_path [Key "messages"; Index 0; Key "destinations"; Index 0; Key "messageId"]
        (req_Body req) = Some (JString "10")
    ∧ at_path [Key "messages"; Index 0; Key "notifyUrl"] (req_Body req)
        = Some (JString ("https://courier.example.org/c/ib/"
                           +:+ "8eb23e93-5ecb-45ba-b726-3b064e0c56ab/delivered")).
Proof.
  intros env out.
  destruct (C8_outbound_envelope (Sample.outgoing Sample.channel) Sample.empty_world)
    as (req & Hreq & Hto & _ & _ & _ & Hid & _ & _ & Hurl).
  - split; vm_compute; discriminate.
  - exists req. split; [exact Hreq|]. split; [exact Hto|]. split; [exact Hid | exact Hurl].
Defined.

(** ** Further properties of the handler *)

Section More.
Context {env : Collaborators}.

(** *** The inbound handler, whatever the collaborators answer *)

(** However the loop ends - off the slice, at a timestamp that does not
    parse, or at a write the backend refuses - it has stored, in order, the
    messages of the first [k] records with text, and touched neither the
    statuses, nor the requests, nor the logs. *)
Lemma ReceiveMessage_range_ends channel results msgs w :
  let with_text := filter (λ rec, Text rec ≠ "") results in
  ∃ new k res w',
    ReceiveMessage_range channel results msgs w = (res, w')
    ∧ backend_msgs w' = backend_msgs w ++ new
    ∧ backend_statuses w' = backend_statuses w
    ∧ http_requests w' = http_requests w
    ∧ channel_logs w' = channel_logs w
    ∧ (clock_reads w ≤ clock_reads w')%nat
    ∧ Forall2 (accepted_as channel (clock_reads w) (clock_reads w'))
        (take k with_text) new
    ∧ ((res = Returns (inr (msgs ++ new))
        ∧ responses w' = responses w ∧ take k with_text = with_text)
       ∨ (∃ err werr, res = Returns (inl ([], werr))
                      ∧ responses w' = responses w ++ [ResponseError err])
       ∨ (∃ err, res = Returns (inl ([], Some err))
                 ∧ responses w' = responses w)).
Proof.
  revert msgs w. induction results as [|rec rest IH]; intros msgs w with_text.
  { exists [], 0%nat, (Returns (inr msgs)), w. subst with_text. simpl.
    rewrite !app_nil_r. repeat split; try done. by left. }
  subst with_text.
  destruct (decide (Text rec = "")) as [Htext|Htext].
  { rewrite ReceiveMessage_range_skip, filter_cons_False by naive_solver. apply IH. }
  rewrite filter_cons_True by done. simpl. rewrite decide_False by done.
  unfold bind at 1. unfold time_Now at 1.
  set (w1 := {| backend_msgs := backend_msgs w;
                backend_statuses := backend_statuses w;
                responses := responses w;
                http_requests := http_requests w;
                channel_logs := channel_logs w;
                clock_reads := S (clock_reads w) |}).
  destruct (if decide (ReceivedAt rec = "") then inl (clock (clock_reads w))
            else time_Parse receivedAt_layout (ReceivedAt rec)) as [date|err] eqn:Hdate.
  2:{ exists [], 0%nat. run. do 2 eexists. split; [reflexivity|]. simpl.
      rewrite !app_nil_r. repeat split; try done; [lia|]. right. left. by eauto. }
  set (msg := WithExternalID _ _).
  unfold bind, WriteMsg at 1.
  destruct (Backend_WriteMsg w1 msg) as [err|] eqn:Hwrite.
  { exists [], 0%nat. do 2 eexists. split; [reflexivity|]. simpl.
    rewrite !app_nil_r. repeat split; try done; [lia|]. right. right. by eauto. }
  set (w2 := {| backend_msgs := backend_msgs w1 ++ [msg];
                backend_statuses := backend_statuses w1;
                responses := responses w1;
                http_requests := http_requests w1;
                channel_logs := channel_logs w1;
                clock_reads := clock_reads w1 |}).
  destruct (IH (msgs ++ [msg]) w2)
    as (new & k & res & w' & Hrun & Hmsgs & Hstatuses & Hrequests & Hlogs
        & Hclock & Hall & Hends).
  exists (msg :: new), (S k), res, w'. simpl in *.
  split; [exact Hrun|].
  split; [by rewrite Hmsgs, <- (assoc_L (++))|].
  repeat (split; [done || lia|]).
  split.
  - constructor.
    + repeat split; try done.
      destruct (decide (ReceivedAt rec = "")) as [Habsent|Hpresent].
      * left. split; [done|]. exists (clock_reads w). split; [lia|].
        by injection Hdate as <-.
      * right. by eauto.
    + eapply Forall2_impl; [exact Hall|].
      intros rec' m'. apply accepted_as_weaken; lia.
  - destruct Hends as [(Hout & Hresp & Htake)|[Hrefused|Hfailed]].
    + left. rewrite Hout, <- (assoc_L (++)), Htake. by repeat split.
    + right. left. exact Hrefused.
    + right. right. exact Hfailed.
Qed.

Lemma accepted_have_text channel lo hi k results new :
  Forall2 (accepted_as channel lo hi) (take k (filter (λ rec, Text rec ≠ "") results)) new →
  Forall (λ m, msg_Text m ≠ "" ∧ msg_Channel m = channel ∧ is_Some (msg_ReceivedOn m)) new.
Proof.
  intros Hall. eapply Forall2_Forall_r; [exact Hall|].
  apply Forall_take, Forall_forall. intros rec Hrec m (Hchannel & _ & Htext & _ & Hdate).
  apply list_elem_of_filter in Hrec as [Hrec _].
  split; [by rewrite Htext|]. split; [done|].
  destruct Hdate as [(_ & n & _ & ->)|(_ & date & _ & ->)]; by eexists.
Qed.

(** The four ways [ReceiveMessage] ends, with what each leaves behind. *)
Lemma ReceiveMessage_ends channel r w :
  ∃ new res w',
    ReceiveMessage channel r w = (res, w')
    ∧ backend_msgs w' = backend_msgs w ++ new
    ∧ backend_statuses w' = backend_statuses w
    ∧ http_requests w' = http_requests w
    ∧ channel_logs w' = channel_logs w
    ∧ (clock_reads w ≤ clock_reads w')%nat
    ∧ (∀ ie, DecodeAndValidateJSON_infobipEnvelope r = inl ie →
         ∃ k, Forall2 (accepted_as channel (clock_reads w) (clock_reads w'))
                (take k (filter (λ rec, Text rec ≠ "") (Results ie))) new)
    ∧ ((∃ first rest werr,
          new = first :: rest ∧ res = Returns ([EventMsg first], werr)
          ∧ responses w' = responses w ++ [ResponseMsgSuccess new])
       ∨ (∃ werr,
            new = [] ∧ res = Returns ([], werr)
            ∧ responses w' = responses w ++ [ResponseIgnored "ignoring request, no message"])
       ∨ (∃ err werr,
            res = Returns ([], werr)
            ∧ responses w' = responses w ++ [ResponseError err])
       ∨ (∃ err, res = Returns ([], Some err) ∧ responses w' = responses w)).
Proof.
  unfold ReceiveMessage.
  destruct (DecodeAndValidateJSON_infobipEnvelope r) as [ie|err] eqn:Hdec.
  2:{ exists []. run. do 2 eexists. split; [reflexivity|]. simpl.
      rewrite app_nil_r. repeat split; try done. right. right. left. by eauto. }
  destruct (decide (MessageCount ie = 0)) as [Hzero|Hcount].
  { exists []. run. do 2 eexists. split; [reflexivity|]. simpl.
    rewrite app_nil_r. repeat split; try done.
    - intros ? [= <-]. exists 0%nat. constructor.
    - right. left. by eauto. }
  destruct (ReceiveMessage_range_ends channel (Results ie) [] w)
    as (new & k & res & w' & Hrun & Hmsgs & Hstatuses & Hrequests & Hlogs
        & Hclock & Hall & Hends).
  exists new. unfold bind at 1. rewrite Hrun.
  destruct Hends as [(-> & Hresp & _)|[(err & werr & -> & Hresp)|(err & -> & Hresp)]].
  - destruct new as [|first rest]; run.
    + do 2 eexists. split; [reflexivity|]. simpl. repeat split; try done.
      * intros ? [= <-]. by exists k.
      * right. left. exists (ResponseWriter_Write w' (ResponseIgnored "ignoring request, no message")).
        by rewrite Hresp.
    + do 2 eexists. split; [reflexivity|]. simpl. repeat split; try done.
      * intros ? [= <-]. by exists k.
      * left. do 3 eexists. split; [reflexivity|]. split; [reflexivity|].
        by rewrite Hresp.
  - run. do 2 eexists. split; [reflexivity|]. repeat split; try done.
    + intros ? [= <-]. by exists k.
    + right. right. left. by eauto.
  - run. do 2 eexists. split; [reflexivity|]. repeat split; try done.
    + intros ? [= <-]. by exists k.
    + right. right. right. by eauto.
Qed.

(** X1: [ReceiveMessage] never panics, whatever the body, the world and the
    collaborators: [msgs[0]] is read only when a message was accepted. *)
Theorem ReceiveMessage_never_panics channel r w reason :
  (ReceiveMessage channel r w).1 ≠ Panics reason.
Proof.
  destruct (ReceiveMessage_ends channel r w)
    as (new & res & w' & -> & _ & _ & _ & _ & _ & _ & Hends). simpl.
  destruct Hends as [(?&?&?&_&->&_)|[(?&_&->&_)|[(?&?&->&_)|(?&->&_)]]]; done.
Qed.

(** X2: whatever happens, the messages [ReceiveMessage] has stored are
    those of the first records with text of the decoded batch, in order:
    none is skipped, none is stored twice, and each carries the text, the
    sender, the identifier and the timestamp of its record. *)
Theorem ReceiveMessage_stores_a_prefix channel r ie w :
  DecodeAndValidateJSON_infobipEnvelope r = inl ie →
  let out := ReceiveMessage channel r w in
  ∃ new k,
    backend_msgs out.2 = backend_msgs w ++ new
    ∧ Forall2 (accepted_as channel (clock_reads w) (clock_reads out.2))
        (take k (filter (λ rec, Text rec ≠ "") (Results ie))) new
    ∧ Forall (λ m, msg_Text m ≠ "" ∧ msg_Channel m = channel ∧ is_Some (msg_ReceivedOn m)) new.
Proof.
  intros Hdec out. subst out.
  destruct (ReceiveMessage_ends channel r w)
    as (new & res & w' & -> & Hmsgs & _ & _ & _ & _ & Hprefix & _). simpl.
  destruct (Hprefix ie Hdec) as [k Hall].
  exists new, k. split; [done|]. split; [done|]. by eapply accepted_have_text.
Qed.

(** X3: [ReceiveMessage] ends in one of four ways.  It acknowledges the
    messages it stored in this call - all of them, the first one being the
    event; or it stored nothing and answers ignored; or it answers with an
    error response; or the backend refused a write and it returns that
    error without writing any response. *)
Theorem ReceiveMessage_outcomes channel r w :
  let out := ReceiveMessage channel r w in
  ∃ new,
    backend_msgs out.2 = backend_msgs w ++ new
    ∧ ((∃ first rest werr,
          new = first :: rest ∧ out.1 = Returns ([EventMsg first], werr)
          ∧ responses out.2 = responses w ++ [ResponseMsgSuccess new])
       ∨ (∃ werr,
            new = [] ∧ out.1 = Returns ([], werr)
            ∧ responses out.2
                = responses w ++ [ResponseIgnored "ignoring request, no message"])
       ∨ (∃ err werr,
            out.1 = Returns ([], werr)
            ∧ responses out.2 = responses w ++ [ResponseError err])
       ∨ (∃ err, out.1 = Returns ([], Some err) ∧ responses out.2 = responses w)).
Proof.
  intros out. subst out.
  destruct (ReceiveMessage_ends channel r w)
    as (new & res & w' & -> & Hmsgs & _ & _ & _ & _ & _ & Hends).
  by exists new.
Qed.

(** X4: [ReceiveMessage] stores no status, issues no HTTP request and
    leaves the channel logs alone; the stored messages and the responses
    only grow, the responses by one at most. *)
Theorem ReceiveMessage_frame channel r w :
  let out := ReceiveMessage channel r w in
  backend_statuses out.2 = backend_statuses w
  ∧ http_requests out.2 = http_requests w
  ∧ channel_logs out.2 = channel_logs w
  ∧ (∃ new, backend_msgs out.2 = backend_msgs w ++ new)
  ∧ (∃ written, responses out.2 = responses w ++ written ∧ (length written ≤ 1)%nat).
Proof.
  intros out. subst out.
  destruct (ReceiveMessage_ends channel r w)
    as (new & res & w' & -> & Hmsgs & Hstatuses & Hrequests & Hlogs & _ & _ & Hends).
  simpl. do 3 (split; [done|]). split; [by exists new|].
  destruct Hends as [(?&?&?&_&_&->)|[(?&_&_&->)|[(?&?&_&->)|(?&_&->)]]];
    try (eexists (cons _ nil); split; [reflexivity|simpl; lia]).
  exists []. rewrite app_nil_r. split; [done | simpl; lia].
Qed.

(** X5: when the backend refuses its writes, a batch with nonzero count
    whose first record with text has an absent or well formed timestamp
    ends at that record: the handler returns the backend's error as it is,
    writes no response at all, and nothing is stored. *)
Theorem ReceiveMessage_backend_error_propagates channel r ie rec others err w :
  DecodeAndValidateJSON_infobipEnvelope r = inl ie →
  MessageCount ie ≠ 0 →
  filter (λ rec, Text rec ≠ "") (Results ie) = rec :: others →
  timestamp_ok rec →
  (∀ w0 m, Backend_WriteMsg w0 m = Some err) →
  let out := ReceiveMessage channel r w in
  out.1 = Returns ([], Some err)
  ∧ responses out.2 = responses w
  ∧ backend_msgs out.2 = backend_msgs w
  ∧ clock_reads out.2 = S (clock_reads w).
Proof.
  intros Hdec Hcount Hfilter Hok Hdown out.
  assert (Text rec ≠ "") as Htext.
  { assert (rec ∈ filter (λ rec, Text rec ≠ "") (Results ie)) as Hin
      by (rewrite Hfilter; apply list_elem_of_here).
    by apply list_elem_of_filter in Hin as [? _]. }
  assert (out = (Returns ([], Some err),
                 {| backend_msgs := backend_msgs w;
                    backend_statuses := backend_statuses w;
                    responses := responses w;
                    http_requests := http_requests w;
                    channel_logs := channel_logs w;
                    clock_reads := S (clock_reads w) |})) as ->; [|done].
  subst out.
  rewrite (ReceiveMessage_nonzero _ _ _ _ Hdec Hcount),
          ReceiveMessage_results_filter, Hfilter.
  unfold ReceiveMessage_results, bind at 1. simpl.
  rewrite decide_False by done. unfold bind at 1, time_Now at 1.
  assert (∃ date,
    (if decide (ReceivedAt rec = "") then inl (clock (clock_reads w))
     else time_Parse receivedAt_layout (ReceivedAt rec)) = inl date) as [date ->].
  { destruct Hok as [Habsent|[date Hparse]].
    - rewrite decide_True by done. by eauto.
    - destruct (decide (ReceivedAt rec = "")); by eauto. }
  unfold bind at 1, WriteMsg at 1. by rewrite Hdown.
Qed.

(** *** The status handler, whatever the collaborators answer *)

(** X6: [StatusMessage] stores no message, issues no request, reads no
    clock.  Either it stores exactly one status - for the channel, without
    logs, with value Sent, Delivered or Failed - which is then its event
    and the content of its success response; or it stores none, and answers
    with an error response, or returns the backend's error without any
    response, or panics on the empty batch leaving the world as it was. *)
Theorem StatusMessage_outcomes channel r w :
  let out := StatusMessage channel r w in
  backend_msgs out.2 = backend_msgs w
  ∧ http_requests out.2 = http_requests w
  ∧ channel_logs out.2 = channel_logs w
  ∧ clock_reads out.2 = clock_reads w
  ∧ ((∃ status werr,
        backend_statuses out.2 = backend_statuses w ++ [status]
        ∧ out.1 = Returns ([EventStatus status], werr)
        ∧ responses out.2 = responses w ++ [ResponseStatusSuccess [status]]
        ∧ status_Channel status = channel
        ∧ status_Logs status = []
        ∧ (status_Status status = MsgSent ∨ status_Status status = MsgDelivered
           ∨ status_Status status = MsgFailed))
     ∨ (backend_statuses out.2 = backend_statuses w
        ∧ ((∃ err werr, out.1 = Returns ([], werr)
                        ∧ responses out.2 = responses w ++ [ResponseError err])
           ∨ (∃ err, out.1 = Returns ([], Some err) ∧ responses out.2 = responses w)
           ∨ (out.1 = Panics "index out of range" ∧ out.2 = w)))).
Proof.
  intros out. subst out.
  destruct (DecodeAndValidateJSON_ibStatusEnvelope r) as [[results]|err] eqn:Hdec.
  2:{ unfold StatusMessage. rewrite Hdec. run.
      do 4 (split; [done|]). right. split; [done|]. left. by eauto. }
  destruct results as [|first rest].
  { rewrite (StatusMessage_no_record _ _ _ Hdec). simpl.
    do 4 (split; [done|]). right. split; [done|]. right. by right. }
  rewrite (StatusMessage_decoded _ _ _ _ _ Hdec). unfold StatusMessage_first.
  rewrite infobipStatusMapping_lookup.
  destruct (status_table (ibStatus_Status_GroupName first)) as [v|] eqn:Hv.
  2:{ run. do 4 (split; [done|]). right. split; [done|]. left. by eauto. }
  assert (v = MsgSent ∨ v = MsgDelivered ∨ v = MsgFailed) as Hvalue.
  { revert Hv. unfold status_table. repeat case_decide; intros [= <-]; tauto. }
  run. destruct (Backend_WriteMsgStatus w _) as [err|]; simpl.
  - do 4 (split; [done|]). right. split; [done|]. right. left. by eauto.
  - do 4 (split; [done|]). left. do 2 eexists. by repeat split.
Qed.

(** X7: a decoded status batch without any record makes [StatusMessage]
    panic at [Results[0]], index out of range, before it wrote a response
    or stored anything: the handler has no length check of its own. *)
Theorem StatusMessage_empty_batch_panics channel r w :
  DecodeAndValidateJSON_ibStatusEnvelope r = inl {| ibStatusEnvelope_Results := [] |} →
  let out := StatusMessage channel r w in
  out.1 = Panics "index out of range"
  ∧ out.2 = w
  ∧ responses out.2 = responses w
  ∧ backend_statuses out.2 = backend_statuses w.
Proof.
  intros Hdec out. subst out.
  by rewrite (StatusMessage_no_record _ _ _ Hdec).
Qed.

(** *** The outbound send, whatever the gateway does *)

Lemma alter_last (f : ChannelLog → ChannelLog) (logs : list ChannelLog) entry :
  alter f (length logs) (logs ++ [entry]) = logs ++ [f entry].
Proof. by rewrite alter_app_r_alt, Nat.sub_diag by lia. Qed.

(** With credentials, [SendMsg] makes one request, allocates one log, and
    returns a status whose value goes with the state of that log. *)
Lemma SendMsg_ends msg w :
  credentials_set (msg_Channel msg) →
  let errored :=
    AddLog (NewMsgStatusForID (msg_Channel msg) (msg_ID msg) MsgErrored)
      (length (channel_logs w)) in
  ∃ req status entry w',
    SendMsg msg w = (Returns (Some status, None), w')
    ∧ backend_msgs w' = backend_msgs w
    ∧ backend_statuses w' = backend_statuses w
    ∧ responses w' = responses w
    ∧ clock_reads w' = clock_reads w
    ∧ http_requests w' = http_requests w ++ [req]
    ∧ channel_logs w' = channel_logs w ++ [entry]
    ∧ log_Channel entry = msg_Channel msg
    ∧ log_MsgID entry = msg_ID msg
    ∧ log_RR entry = (Client_Do w req).1
    ∧ ((status = SetStatus errored MsgWired
        ∧ log_Error entry = None ∧ log_Description entry = "Message Sent")
       ∨ (status = errored
          ∧ is_Some (log_Error entry)
          ∧ log_Description entry = "Message Send Error"))
    ∧ req = SetBasicAuth (StringConfigForKey (msg_Channel msg) ConfigUsername "")
              (StringConfigForKey (msg_Channel msg) ConfigPassword "")
              (Header_Set "Accept" "application/json"
                 (Header_Set "Content-Type" "application/json"
                    (NewRequest MethodPost sendURL (req_Body req))))
    ∧ (∃ message, at_path [Key "messages"] (req_Body req) = Some (JArray [message]))
    ∧ (∃ destination,
         at_path [Key "messages"; Index 0; Key "destinations"] (req_Body req)
           = Some (JArray [destination]))
    ∧ at_path [Key "messages"; Index 0; Key "from"] (req_Body req)
        = Some (JString (Address (msg_Channel msg)))
    ∧ at_path [Key "messages"; Index 0; Key "text"] (req_Body req)
        = Some (JString (GetTextAndAttachments msg))
    ∧ at_path [Key "messages"; Index 0; Key "destinations"; Index 0; Key "to"] (req_Body req)
        = Some (JString (TrimLeft (URN_Path (msg_URN msg)) "+"))
    ∧ at_path [Key "messages"; Index 0; Key "notifyUrl"] (req_Body req)
        = Some (JString ("https://" +:+ CallbackDomain (msg_Channel msg) Domain
                           +:+ "/c/ib/" +:+ UUID (msg_Channel msg) +:+ "/delivered")).
Proof.
  intros [Huser Hpass] errored. unfold SendMsg. rewrite !decide_False by done.
  unfold json_Encode. run.
  match goal with |- context [Client_Do w ?sent] => set (req0 := sent) end.
  exists req0.
  destruct (Client_Do w req0) as [rr0 [err0|]] eqn:Hdo; simpl.
  { do 3 eexists. split; [reflexivity|]. simpl. rewrite alter_last.
    do 5 (split; [done|]). split; [reflexivity|]. simpl.
    do 3 (split; [done|]). split; [right; by eauto|].
    split; [done|]. split; [by eexists|]. split; [by eexists|]. done. }
  destruct (jsonparser_GetInt (Body rr0) groupId_path) as [groupID gerr].
  destruct (decide _); simpl.
  - do 3 eexists. split; [reflexivity|]. simpl. rewrite alter_last.
    do 5 (split; [done|]). split; [reflexivity|]. simpl.
    do 3 (split; [done|]). split; [right; by eauto|].
    split; [done|]. split; [by eexists|]. split; [by eexists|]. done.
  - do 3 eexists. split; [reflexivity|]. simpl.
    do 5 (split; [done|]). split; [reflexivity|]. simpl.
    do 3 (split; [done|]). split; [left; by eauto|].
    split; [done|]. split; [by eexists|]. split; [by eexists|]. done.
Qed.


(** X9: with credentials, [SendMsg] always returns a status and a nil
    error, whatever the HTTP client and the JSON reader answer; the status
    is for the channel and the identifier of the message, has exactly one
    log, and its value is Errored or Wired. *)
Theorem SendMsg_always_returns_status msg w :
  credentials_set (msg_Channel msg) →
  ∃ status,
    (SendMsg msg w).1 = Returns (Some status, None)
    ∧ status_Channel status = msg_Channel msg
    ∧ status_ID status = msg_ID msg
    ∧ status_Logs status = [length (channel_logs w)]
    ∧ (status_Status status = MsgErrored ∨ status_Status status = MsgWired).
Proof.
  intros Hcred.
  destruct (SendMsg_ends msg w Hcred)
    as (req & status & entry & w' & -> & _ & _ & _ & _ & _ & _ & _ & _ & _ & Hstatus & _).
  exists status. simpl. split; [done|].
  destruct Hstatus as [(-> & _)|(-> & _)]; simpl; repeat split; auto.
Qed.

(** X10: [SendMsg] never writes to the backend or to a response writer and
    never reads the clock; it hands at most one request to the HTTP client
    (no retry) and adds at most one log, leaving the logs that were there
    untouched. *)
Theorem SendMsg_frame msg w :
  let out := SendMsg msg w in
  backend_msgs out.2 = backend_msgs w
  ∧ backend_statuses out.2 = backend_statuses w
  ∧ responses out.2 = responses w
  ∧ clock_reads out.2 = clock_reads w
  ∧ (∃ sent, http_requests out.2 = http_requests w ++ sent ∧ (length sent ≤ 1)%nat)
  ∧ (∃ logged, channel_logs out.2 = channel_logs w ++ logged ∧ (length logged ≤ 1)%nat).
Proof.
  intros out. subst out.
  destruct (decide (StringConfigForKey (msg_Channel msg) ConfigUsername "" = ""))
    as [Huser|Huser].
  { unfold SendMsg. rewrite decide_True by done. simpl.
    do 4 (split; [done|]).
    split; exists []; rewrite app_nil_r; (split; [done | simpl; lia]). }
  destruct (decide (StringConfigForKey (msg_Channel msg) ConfigPassword "" = ""))
    as [Hpass|Hpass].
  { unfold SendMsg. rewrite decide_False, decide_True by done. simpl.
    do 4 (split; [done|]).
    split; exists []; rewrite app_nil_r; (split; [done | simpl; lia]). }
  destruct (SendMsg_ends msg w (conj Huser Hpass))
    as (req & status & entry & w' & -> & ? & ? & ? & ? & Hreq & Hlogs & _).
  simpl. do 4 (split; [done|]). split.
  - exists [req]. split; [done | simpl; lia].
  - exists [entry]. split; [done | simpl; lia].
Qed.

(** X11: with credentials, the value of the returned status tells the state
    of its log: Wired exactly when the log carries no error (and still says
    "Message Sent"), Errored exactly when it carries one (and says "Message
    Send Error"); the log is the record of the answer to the request. *)
Theorem SendMsg_status_matches_log msg w :
  credentials_set (msg_Channel msg) →
  let out := SendMsg msg w in
  ∃ status entry req,
    out.1 = Returns (Some status, None)
    ∧ http_requests out.2 = http_requests w ++ [req]
    ∧ log_of out.2 status = Some entry
    ∧ log_RR entry = (Client_Do w req).1
    ∧ log_MsgID entry = msg_ID msg
    ∧ (status_Status status = MsgWired ↔ log_Error entry = None)
    ∧ (status_Status status = MsgErrored ↔ is_Some (log_Error entry))
    ∧ (status_Status status = MsgWired → log_Description entry = "Message Sent")
    ∧ (status_Status status = MsgErrored → log_Description entry = "Message Send Error").
Proof.
  intros Hcred out. subst out.
  destruct (SendMsg_ends msg w Hcred)
    as (req & status & entry & w' & -> & _ & _ & _ & _ & Hreq & Hlogs & _ & Hid & Hrr
        & Hstatus & _).
  exists status, entry, req. simpl. split; [done|]. split; [done|].
  assert (log_of w' status = Some entry) as Hlog.
  { unfold log_of.
    destruct Hstatus as [(-> & _)|(-> & _)]; simpl;
      by rewrite Hlogs, list_lookup_middle. }
  do 3 (split; [done|]).
  destruct Hstatus as [(-> & Hnone & Hdesc)|(-> & Hsome & Hdesc)]; simpl.
  - rewrite Hnone. repeat split; try done.
  - destruct Hsome as [e He]. rewrite He. repeat split; try done.
Qed.


Lemma TrimLeft_leading_plus (n : nat) (s : string) :
  TrimLeft (replicate_char n "+" +:+ s) "+" = TrimLeft s "+".
Proof. induction n as [|n IH]; [done|]. simpl. exact IH. Qed.

(** X13: leading "+" signs of the destination do not matter: two messages
    whose URN paths differ only by leading "+" signs are sent to the same
    [to]. *)
Theorem SendMsg_destination_ignores_leading_plus msg1 msg2 n w1 w2 :
  credentials_set (msg_Channel msg1) →
  credentials_set (msg_Channel msg2) →
  URN_Path (msg_URN msg1) = replicate_char n "+" +:+ URN_Path (msg_URN msg2) →
  let to := [Key "messages"; Index 0; Key "destinations"; Index 0; Key "to"] in
  ∃ req1 req2,
    http_requests (SendMsg msg1 w1).2 = http_requests w1 ++ [req1]
    ∧ http_requests (SendMsg msg2 w2).2 = http_requests w2 ++ [req2]
    ∧ at_path to (req_Body req1) = at_path to (req_Body req2).
Proof.
  intros Hcred1 Hcred2 Hpath to.
  destruct (SendMsg_ends msg1 w1 Hcred1)
    as (req1 & ? & ? & ? & -> & _ & _ & _ & _ & Hreq1 & _ & _ & _ & _ & _
        & _ & _ & _ & _ & _ & Hto1 & _).
  destruct (SendMsg_ends msg2 w2 Hcred2)
    as (req2 & ? & ? & ? & -> & _ & _ & _ & _ & Hreq2 & _ & _ & _ & _ & _
        & _ & _ & _ & _ & _ & Hto2 & _).
  exists req1, req2. split; [done|]. split; [done|].
  subst to. by rewrite Hto1, Hto2, Hpath, TrimLeft_leading_plus.
Qed.

(** *** Routes *)

Context {server : Server}.

(** What [Initialize] adds to the routes when it returns nil. *)
Lemma Initialize_routes_added h routes :
  ∃ added,
    (Initialize h routes).2.2 = routes ++ added
    ∧ ((Initialize h routes).1 = None →
       added = [ {| route_ChannelType := ChannelType h; route_Method := "POST";
                    route_Action := "receive"; route_Func := h_ReceiveMessage |};
                 {| route_ChannelType := ChannelType h; route_Method := "POST";
                    route_Action := "delivered"; route_Func := h_StatusMessage |} ]).
Proof.
  unfold Initialize, AddHandlerRoute. simpl.
  destruct (Server_refuses routes _) as [err|]; simpl.
  { exists []. by rewrite app_nil_r. }
  destruct (Server_refuses (routes ++ _) _) as [err|]; simpl.
  - by eexists [_].
  - eexists [_; _]. by rewrite <- (assoc_L (++)).
Qed.

(** X14: [Initialize] marks the server as set and registers its routes in
    order, receive first: what it adds is a prefix of the two routes (POST
    receive to [ReceiveMessage], POST delivered to [StatusMessage]), it
    returns nil exactly when both were added, and a route refused stops it
    with the server's error. *)
Theorem Initialize_routes h routes :
  let receive := {| route_ChannelType := ChannelType h; route_Method := "POST";
                    route_Action := "receive"; route_Func := h_ReceiveMessage |} in
  let delivered := {| route_ChannelType := ChannelType h; route_Method := "POST";
                      route_Action := "delivered"; route_Func := h_StatusMessage |} in
  let out := Initialize h routes in
  server_set out.2.1 = true
  ∧ ∃ added,
      out.2.2 = routes ++ added
      ∧ added `prefix_of` [receive; delivered]
      ∧ (out.1 = None ↔ added = [receive; delivered])
      ∧ (added = [] → out.1 = Server_refuses routes receive)
      ∧ (added = [receive] → out.1 = Server_refuses (routes ++ [receive]) delivered).
Proof.
  intros receive delivered out. subst out. unfold Initialize, AddHandlerRoute. simpl.
  fold receive delivered.
  destruct (Server_refuses routes receive) as [err|] eqn:Hfirst; simpl.
  { split; [done|]. exists []. rewrite app_nil_r. split; [done|].
    split; [by apply prefix_nil|]. by repeat split. }
  destruct (Server_refuses (routes ++ [receive]) delivered) as [err|] eqn:Hsecond; simpl.
  - split; [done|]. exists [receive]. split; [done|].
    split; [by exists [delivered]|]. by repeat split.
  - split; [done|]. exists [receive; delivered]. rewrite <- (assoc_L (++)).
    split; [done|]. split; [done|]. by repeat split.
Qed.

(** X15: the callback given to the gateway lands on the status handler:
    once [Initialize] succeeded for the handler of [NewHandler], one of its
    routes is a POST route of channel type IB served by [StatusMessage],
    and the notifyUrl of every send ends with the action of that route. *)
Theorem SendMsg_callback_is_the_status_route routes msg w :
  (Initialize NewHandler routes).1 = None →
  credentials_set (msg_Channel msg) →
  ∃ route req,
    route ∈ (Initialize NewHandler routes).2.2
    ∧ serve (route_Func route) = StatusMessage
    ∧ route_Method route = "POST"
    ∧ route_ChannelType route = "IB"
    ∧ http_requests (SendMsg msg w).2 = http_requests w ++ [req]
    ∧ at_path [Key "messages"; Index 0; Key "notifyUrl"] (req_Body req)
        = Some (JString ("https://" +:+ CallbackDomain (msg_Channel msg) Domain
                           +:+ "/c/ib/" +:+ UUID (msg_Channel msg)
                           +:+ "/" +:+ route_Action route)).
Proof.
  intros Hinit Hcred.
  destruct (Initialize_routes_added NewHandler routes) as (added & Hroutes & Hdone).
  apply Hdone in Hinit. subst added.
  destruct (SendMsg_ends msg w Hcred)
    as (req & ? & ? & ? & Hsend & _ & _ & _ & _ & Hreq & _ & _ & _ & _ & _
        & _ & _ & _ & _ & _ & _ & Hurl).
  eexists _, req. split.
  { rewrite Hroutes. apply elem_of_app. right.
    apply list_elem_of_further, list_elem_of_here. }
  simpl. do 3 (split; [done|]). split; [by rewrite Hsend|]. exact Hurl.
Qed.

End More.

(** *** The encoder *)





Section Paths.
Context {env : Collaborators}.

(** X17: the happy path of [ReceiveMessage].  For a decoded batch with
    nonzero count and at least one record with text, all such records
    having an absent or well formed timestamp, and a backend that accepts
    every write: one message per record with text is stored, in order, the
    event is the first of them, and the single response is the success
    acknowledgment listing all of them. *)
Theorem ReceiveMessage_success channel r ie w :
  DecodeAndValidateJSON_infobipEnvelope r = inl ie →
  MessageCount ie ≠ 0 →
  (∀ w0 m, Backend_WriteMsg w0 m = None) →
  Forall timestamp_ok (filter (λ rec, Text rec ≠ "") (Results ie)) →
  filter (λ rec, Text rec ≠ "") (Results ie) ≠ [] →
  let out := ReceiveMessage channel r w in
  ∃ first rest werr,
    out.1 = Returns ([EventMsg first], werr)
    ∧ backend_msgs out.2 = backend_msgs w ++ first :: rest
    ∧ responses out.2 = responses w ++ [ResponseMsgSuccess (first :: rest)]
    ∧ Forall2 (accepted_as channel (clock_reads w) (clock_reads out.2))
        (filter (λ rec, Text rec ≠ "") (Results ie)) (first :: rest).
Proof.
  intros Hdec Hcount Hbackend Hok Hsome out.
  destruct (ReceiveMessage_range_accepts channel
              (filter (λ rec, Text rec ≠ "") (Results ie)) [] w Hbackend)
    as (new & w' & Hrun & Hstores & Hall).
  { eapply Forall_impl; [exact Hok|]. by intros. }
  rewrite filter_text_idemp in Hall.
  destruct Hstores as (Hmsgs & _ & Hresp & _).
  destruct new as [|first rest].
  { apply Forall2_nil_inv_r in Hall. done. }
  assert (out = (Returns ([EventMsg first],
                          ResponseWriter_Write w' (ResponseMsgSuccess (first :: rest))),
                 {| backend_msgs := backend_msgs w';
                    backend_statuses := backend_statuses w';
                    responses := responses w' ++ [ResponseMsgSuccess (first :: rest)];
                    http_requests := http_requests w';
                    channel_logs := channel_logs w';
                    clock_reads := clock_reads w' |})) as ->.
  { subst out. rewrite (ReceiveMessage_nonzero _ _ _ _ Hdec Hcount),
      ReceiveMessage_results_filter.
    unfold ReceiveMessage_results, bind at 1. by rewrite Hrun. }
  exists first, rest. eexists. simpl. split; [reflexivity|].
  split; [done|]. split; [by rewrite Hresp|]. done.
Qed.

(** The body of the request of [SendMsg] is the encoding of one message to
    one destination. *)
Lemma SendMsg_body msg w :
  credentials_set (msg_Channel msg) →
  ∃ req,
    http_requests (SendMsg msg w).2 = http_requests w ++ [req]
    ∧ req_Body req
        = encode_ibOutgoingEnvelope
            {| Messages :=
                 [ {| out_From := Address (msg_Channel msg);
                      Destinations :=
                        [ {| To := TrimLeft (URN_Path (msg_URN msg)) "+";
                             dest_MessageID := MsgID_String (msg_ID msg) |} ];
                      out_Text := GetTextAndAttachments msg;
                      NotifyContentType := "application/json";
                      IntermediateReport := true;
                      NotifyURL := "https://" +:+ CallbackDomain (msg_Channel msg) Domain
                                     +:+ "/c/ib/" +:+ UUID (msg_Channel msg)
                                     +:+ "/delivered" |} ] |}.
Proof.
  intros [Huser Hpass]. unfold SendMsg. rewrite !decide_False by done.
  unfold json_Encode. run.
  match goal with |- context [Client_Do w ?sent] => set (req0 := sent) end.
  exists req0. split; [|done].
  destruct (Client_Do w req0) as [rr0 [err0|]]; simpl; [done|].
  destruct (jsonparser_GetInt (Body rr0) groupId_path) as [groupID gerr].
  by destruct (decide _).
Qed.

(** X18: the JSON body sent to the gateway does not depend on the
    credentials: two messages that agree on everything [SendMsg] reads but
    the configuration of their channels (both with credentials) are sent
    with the same body; the credentials travel in the authentication of
    the request only. *)
Theorem SendMsg_body_free_of_credentials msg1 msg2 w1 w2 :
  credentials_set (msg_Channel msg1) →
  credentials_set (msg_Channel msg2) →
  Address (msg_Channel msg1) = Address (msg_Channel msg2) →
  UUID (msg_Channel msg1) = UUID (msg_Channel msg2) →
  CallbackDomain (msg_Channel msg1) Domain = CallbackDomain (msg_Channel msg2) Domain →
  msg_URN msg1 = msg_URN msg2 →
  msg_ID msg1 = msg_ID msg2 →
  GetTextAndAttachments msg1 = GetTextAndAttachments msg2 →
  ∃ req1 req2,
    http_requests (SendMsg msg1 w1).2 = http_requests w1 ++ [req1]
    ∧ http_requests (SendMsg msg2 w2).2 = http_requests w2 ++ [req2]
    ∧ req_Body req1 = req_Body req2.
Proof.
  intros Hcred1 Hcred2 Haddress Huuid Hdomain Hurn Hid Htext.
  destruct (SendMsg_body msg1 w1 Hcred1) as (req1 & Hreq1 & Hbody1).
  destruct (SendMsg_body msg2 w2 Hcred2) as (req2 & Hreq2 & Hbody2).
  exists req1, req2. split; [done|]. split; [done|].
  by rewrite Hbody1, Hbody2, Haddress, Huuid, Hdomain, Hurn, Hid, Htext.
Qed.

End Paths.

(** ** The further properties on the sample collaborators *)

Lemma ReceiveMessage_stores_a_prefix_witness :
  let env := Sample.collaborators Sample.accepting in
  let out := ReceiveMessage Sample.channel Sample.half_good_body Sample.empty_world in
  ∃ new, backend_msgs out.2 = new ∧ Forall (λ m, msg_Text m ≠ "") new.
Proof.
  intros env out.
  destruct (ReceiveMessage_stores_a_prefix Sample.channel Sample.half_good_body
              {| PendingMessageCount := 0; MessageCount := 2;
                 Results := [Sample.undated; Sample.misdated] |}
              Sample.empty_world)
    as (new & k & Hmsgs & _ & Htext).
  - vm_compute; reflexivity.
  - exists new. split; [exact Hmsgs|].
    eapply Forall_impl; [exact Htext|]. intros m Hm. exact (proj1 Hm).
Defined.

Lemma ReceiveMessage_backend_error_propagates_witness :
  let env := Trial.refusing in
  let body := Sample.inbound_body 1
                [Sample.inbound_record "" "";
                 Sample.inbound_record "hello" "2016-10-06T09:28:39.220+0000"] in
  let out := ReceiveMessage Sample.channel body Sample.empty_world in
  out.1 = Returns ([], Some "backend unavailable") ∧ responses out.2 = [].
Proof.
  intros env body out.
  destruct (ReceiveMessage_backend_error_propagates Sample.channel body
              {| PendingMessageCount := 0; MessageCount := 1;
                 Results := [ {| MessageID := "817790313235066447";
                                 From := "385916242493"; Text := ""; ReceivedAt := "" |};
                              Sample.dated ] |}
              Sample.dated [] "backend unavailable" Sample.empty_world)
    as (Hout & Hresponses & _).
  - vm_compute; reflexivity.
  - discriminate.
  - reflexivity.
  - right. exists Sample.received. vm_compute; reflexivity.
  - intros w0 m. reflexivity.
  - split; [exact Hout | exact Hresponses].
Defined.

Lemma StatusMessage_empty_batch_panics_witness :
  let env := Trial.lenient in
  let out := StatusMessage Sample.channel (Sample.status_body []) Sample.empty_world in
  out.1 = Panics "index out of range" ∧ responses out.2 = [].
Proof.
  intros env out.
  destruct (StatusMessage_empty_batch_panics Sample.channel (Sample.status_body [])
              Sample.empty_world) as (Hout & _ & Hresponses & _).
  - vm_compute; reflexivity.
  - split; [exact Hout | exact Hresponses].
Defined.


Lemma SendMsg_always_returns_status_witness :
  let env := Sample.collaborators Sample.rejecting in
  ∃ status,
    (SendMsg (Sample.outgoing Sample.channel) Sample.empty_world).1
      = Returns (Some status, None)
    ∧ status_ID status = NewMsgID 10.
Proof.
  intros env.
  destruct (SendMsg_always_returns_status (Sample.outgoing Sample.channel)
              Sample.empty_world) as (status & Hout & _ & Hid & _).
  - split; vm_compute; discriminate.
  - exists status. split; [exact Hout | exact Hid].
Defined.

Lemma SendMsg_status_matches_log_witness :
  let env := Sample.collaborators Sample.rejecting in
  let out := SendMsg (Sample.outgoing Sample.channel) Sample.empty_world in
  ∃ status entry,
    out.1 = Returns (Some status, None)
    ∧ log_of out.2 status = Some entry
    ∧ (status_Status status = MsgWired ↔ log_Error entry = None).
Proof.
  intros env out.
  destruct (SendMsg_status_matches_log (Sample.outgoing Sample.channel) Sample.empty_world)
    as (status & entry & req & Hout & _ & Hlog & _ & _ & Hwired & _).
  - split; vm_compute; discriminate.
  - exists status, entry. split; [exact Hout|]. split; [exact Hlog | exact Hwired].
Defined.

Lemma SendMsg_destination_ignores_leading_plus_witness :
  let env := Sample.collaborators Sample.accepting in
  let to := [Key "messages"; Index 0; Key "destinations"; Index 0; Key "to"] in
  ∃ req1 req2,
    http_requests (SendMsg (Trial.outgoing_to "tel:++15551234567") Sample.empty_world).2
      = [req1]
    ∧ http_requests (SendMsg (Trial.outgoing_to "tel:15551234567") Sample.empty_world).2
        = [req2]
    ∧ at_path to (req_Body req1) = at_path to (req_Body req2).
Proof.
  intros env to.
  apply (SendMsg_destination_ignores_leading_plus
           (Trial.outgoing_to "tel:++15551234567") (Trial.outgoing_to "tel:15551234567")
           2 Sample.empty_world Sample.empty_world).
  - split; vm_compute; discriminate.
  - split; vm_compute; discriminate.
  - vm_compute; reflexivity.
Defined.

Lemma SendMsg_callback_is_the_status_route_witness :
  let env := Sample.collaborators Sample.accepting in
  let server := Trial.open_server in
  ∃ route, route ∈ (Initialize NewHandler []).2.2
           ∧ route_Method route = "POST"
           ∧ serve (route_Func route) = StatusMessage.
Proof.
  intros env server.
  destruct (SendMsg_callback_is_the_status_route [] (Sample.outgoing Sample.channel)
              Sample.empty_world) as (route & req & Hin & Hserve & Hmethod & _).
  - reflexivity.
  - split; vm_compute; discriminate.
  - exists route. split; [exact Hin|]. split; [exact Hmethod | exact Hserve].
Defined.


Lemma ReceiveMessage_success_witness :
  let env := Sample.collaborators Sample.accepting in
  let body := Sample.inbound_body 7
                [Sample.inbound_record "hello" "2016-10-06T09:28:39.220+0000";
                 Sample.inbound_record_undated "hello"] in
  let out := ReceiveMessage Sample.channel body Sample.empty_world in
  ∃ first rest,
    backend_msgs out.2 = first :: rest
    ∧ responses out.2 = [ResponseMsgSuccess (first :: rest)]
    ∧ length rest = 1%nat.
Proof.
  intros env body out.
  destruct (ReceiveMessage_success Sample.channel body
              {| PendingMessageCount := 0; MessageCount := 7;
                 Results := [Sample.dated; Sample.undated] |}
              Sample.empty_world) as (first & rest & werr & _ & Hmsgs & Hresponses & Hall).
  - vm_compute; reflexivity.
  - discriminate.
  - intros w0 m. reflexivity.
  - change (Forall timestamp_ok [Sample.dated; Sample.undated]).
    constructor; [right; exists Sample.received; vm_compute; reflexivity|].
    constructor; [left; reflexivity | constructor].
  - discriminate.
  - exists first, rest. split; [exact Hmsgs|]. split; [exact Hresponses|].
    apply Forall2_length in Hall. simpl in Hall. by injection Hall as <-.
Defined.

Lemma SendMsg_body_free_of_credentials_witness :
  let env := Sample.collaborators Sample.accepting in
  ∃ req1 req2,
    http_requests (SendMsg (Sample.outgoing Sample.channel) Sample.empty_world).2 = [req1]
    ∧ http_requests
        (SendMsg (Sample.outgoing Trial.channel_with_other_credentials) Sample.empty_world).2
        = [req2]
    ∧ req_Body req1 = req_Body req2.
Proof.
  intros env.
  apply (SendMsg_body_free_of_credentials (Sample.outgoing Sample.channel)
           (Sample.outgoing Trial.channel_with_other_credentials)
           Sample.empty_world Sample.empty_world); try reflexivity.
  - split; vm_compute; discriminate.
  - split; vm_compute; discriminate.
Defined.

